(** * Confession manager: the Google Sheets client of [bot/google.py]

    A shallow embedding of the classes [Sheet] and [ConfessionsSheet] and
    the properties of the row classifier, the archiver and the batched row
    deletion.

    The remote spreadsheet is not part of the program.  Every
    [....execute()] of the source becomes one [request] handed to a
    [service], which answers or raises; the requests issued so far are
    recorded, in order, in the [world].  The wall clock read by
    [datetime.datetime.now()] is a sequence of instants, one per reading. *)

From Stdlib Require Import ZArith Ascii String DecimalString.
From stdpp Require Import base option list strings gmap sorting.

Local Open Scope string_scope.
Local Open Scope list_scope.
Local Open Scope Z_scope.

(** ** Values *)

(** The Python values stored in a confession and in an archive row: cells
    are [str], line numbers are [int]. *)
Inductive value : Type :=
  | VStr (s : string)
  | VInt (n : Z).

(** A Raw Row as the remote service returns it: its cells, left to right. *)
Abbreviation raw_row := (list string).

(** A confession is a Python [dict] with [str] keys. *)
Abbreviation confession_dict := (gmap string value).

(** ** Constants (the CONSTANTS block of the module) *)

Definition CONFESSION_SHEET_ID : string := "444158458".
Definition ARCHIVE_SHEET_ID : string := "1557599273".

Definition CONFESSION_READY_LENGTH : nat := 3.
Definition ROWS_DIMENSION : string := "ROWS".
Definition READY_CONFESSIONS_A1_FORMAT : string := "Form Responses 1!A:C".
Definition ARCHIVE_RANGE : string := "Archive!A:C".
Definition PUBLISHED_TIME_FORMAT : string := "%m/%j/%Y %H:%M:%S".

Definition RAW_INPUT_OPTION : string := "RAW".
Definition PARSE_DATA_INPUT_OPTION : string := "USER_ENTERED".

Definition DATE_PUBLISHED_DICT_KEY : string := "Date Published".
Definition CONFESSION_DICT_KEY : string := "Confession".
Definition LINE_NUMBER_DICT_KEY : string := "Line Number".

Definition DATE_RECEIVED_INDEX : nat := 0.
Definition CONFESSION_INDEX : nat := 1.

(** ** The remote interface *)

(** The [range] object of a [deleteDimension] request. *)
Record GridRange : Type := {
  sheetId : string;
  dimension : string;
  startIndex : Z;
  endIndex : Z
}.

(** One entry of the ["requests"] list of a batch update. *)
Inductive batch_request : Type :=
  | deleteDimension (range : GridRange).

(** A call sent to the service: what is executed by
    [values().get(...)], [values().append(...)] and [batchUpdate(...)].
    For [values_append] the last argument is the value stored under
    ["values"] in the body, for [batchUpdate] the list stored under
    ["requests"]. *)
Inductive request : Type :=
  | values_get (spreadsheetId range : string)
  | values_append (spreadsheetId range valueInputOption : string)
                  (body_values : list value)
  | batchUpdate (spreadsheetId : string) (body_requests : list batch_request).

(** The dictionary answered by [execute()].  The program reads one key of
    it, ["values"], which the service leaves out when the range holds no
    data: [None] is the absent key. *)
Record response : Type := {
  values : option (list raw_row)
}.

(** ** Exceptions and outcomes *)

Inductive exn : Type :=
  | AttributeError (cls attr : string)
  | KeyError (key : string)
  | IndexError
  | TypeError
  | HttpError (status : Z).

Inductive outcome (A : Type) : Type :=
  | Returned (a : A)
  | Raised (e : exn).
Arguments Returned {A} a.
Arguments Raised {A} e.

(** ** Wall-clock instants and [strftime] *)

Record datetime : Type := {
  year : Z;
  month : Z;
  day : Z;
  hour : Z;
  minute : Z;
  second : Z
}.

Definition is_leap (y : Z) : bool :=
  (y mod 4 =? 0) && (negb (y mod 100 =? 0) || (y mod 400 =? 0)).

Definition days_in_month (y m : Z) : Z :=
  if m =? 2 then (if is_leap y then 29 else 28)
  else if (m =? 4) || (m =? 6) || (m =? 9) || (m =? 11) then 30
  else 31.

(** Days of the year [y] that precede the first day of month [m]. *)
Definition days_before_month (y m : Z) : Z :=
  foldr (fun k acc => days_in_month y (Z.of_nat k) + acc) 0
        (seq 1 (Z.to_nat (m - 1))).

(** [tm_yday]: the day of the year, 1 for the first of January. *)
Definition day_of_year (t : datetime) : Z :=
  days_before_month (year t) (month t) + day t.

(** A field printed in decimal, zero-padded on the left to [width]. *)
Definition decimal (width : nat) (n : Z) : string :=
  let s := NilZero.string_of_uint (N.to_uint (Z.to_N n)) in
  String.string_of_list_ascii
    (replicate (width - String.length s) "0"%char) +:+ s.

(** One conversion specification of a format. *)
Definition directive (c : ascii) (t : datetime) : option string :=
  if decide (c = "m"%char) then Some (decimal 2 (month t))
  else if decide (c = "j"%char) then Some (decimal 3 (day_of_year t))
  else if decide (c = "Y"%char) then Some (decimal 4 (year t))
  else if decide (c = "d"%char) then Some (decimal 2 (day t))
  else if decide (c = "H"%char) then Some (decimal 2 (hour t))
  else if decide (c = "M"%char) then Some (decimal 2 (minute t))
  else if decide (c = "S"%char) then Some (decimal 2 (second t))
  else if decide (c = "%"%char) then Some "%"
  else None.

(** [t.strftime(fmt)] for the numeric date and time directives; any other
    character, and a directive outside the table, is copied as it is. *)
Fixpoint strftime (t : datetime) (fmt : string) : string :=
  match fmt with
  | EmptyString => EmptyString
  | String c rest =>
      if decide (c = "%"%char) then
        match rest with
        | EmptyString => String c EmptyString
        | String d rest' =>
            match directive d t with
            | Some s => s +:+ strftime t rest'
            | None => String c (strftime t rest)
            end
        end
      else String c (strftime t rest)
  end.

(** ** Interpreter state: the program's view of the outside *)

(** What the program did to the outside so far: the requests it executed,
    oldest first, and how often it read the clock. *)
Record world : Type := {
  sent : list request;
  ticks : nat
}.

(** The outside itself.  The service answers a request knowing the
    requests that came before it, or raises (transport, credentials,
    quota); [clock n] is the instant shown at the [n]-th reading. *)
Record environment : Type := {
  service : list request → request → outcome response;
  clock : nat → datetime
}.

(** A computation reads the environment, threads the world, and returns
    or raises. *)
Definition M (A : Type) : Type := environment → world → outcome A * world.

Definition ret {A} (a : A) : M A := fun _ w => (Returned a, w).

Definition raise {A} (e : exn) : M A := fun _ w => (Raised e, w).

Definition bind {A B} (m : M A) (k : A → M B) : M B :=
  fun env w =>
    match m env w with
    | (Returned a, w') => k a env w'
    | (Raised e, w') => (Raised e, w')
    end.

Notation "x <- m ;; k" := (bind m (fun x => k))
  (at level 100, m at next level, right associativity,
   format "'[v' x  <-  m  ;;  '/' k ']'").
Notation "m ;; k" := (bind m (fun _ => k))
  (at level 100, right associativity, format "'[v' m  ;;  '/' k ']'").

(** [request.execute()]: the request is recorded whether it succeeds or
    not. *)
Definition execute (req : request) : M response :=
  fun env w =>
    (service env (sent w) req, {| sent := sent w ++ [req]; ticks := ticks w |}).

(** [datetime.datetime.now()] *)
Definition now : M datetime :=
  fun env w =>
    (Returned (clock env (ticks w)), {| sent := sent w; ticks := S (ticks w) |}).

(** [d[key]] on a dict *)
Definition getitem (d : confession_dict) (key : string) : M value :=
  match d !! key with
  | Some v => ret v
  | None => raise (KeyError key)
  end.

(** [row[i]] on a list, for an index that is not negative *)
Definition index (row : raw_row) (i : nat) : M string :=
  match row !! i with
  | Some c => ret c
  | None => raise IndexError
  end.

(** [for x in xs: body], with the variables the body updates as [s] *)
Fixpoint for_each {A S} (xs : list A) (body : A → S → M S) (s : S) : M S :=
  match xs with
  | [] => ret s
  | x :: xs' => s' <- body x s ;; for_each xs' body s'
  end.

(** [enumerate(xs)] *)
Definition enumerate {A} (xs : list A) : list (Z * A) :=
  imap (fun i x => (Z.of_nat i, x)) xs.

(** [set(rows)] *)
Definition set (rows : list Z) : gset Z := list_to_set rows.

(** The order of [sorted(..., reverse=True)] on integers. *)
Definition descending : relation Z := fun x y => y ≤ x.

#[global] Instance descending_dec x y : Decision (descending x y) :=
  decide (y ≤ x).

(** [sorted(list(s), reverse=True)] *)
Definition sorted_reverse (s : gset Z) : list Z :=
  merge_sort descending (elements s).

(** ** class Sheet *)

(** The instance: [self.id]; the credentials, the connection and the
    service handle of [__init__] stand behind [execute]. *)
Record Sheet : Type := {
  id : string
}.

Section Sheet.
Context (self : Sheet).

Definition get_data (data_range : string) : M (list raw_row) :=
  result <- execute (values_get (id self) data_range) ;;
  ret (default [] (values result)).

Definition add_row (data : list value) (data_range : string)
    (raw_input_option : bool) : M unit :=
  let input_option :=
    if raw_input_option then RAW_INPUT_OPTION else PARSE_DATA_INPUT_OPTION in
  execute (values_append (id self) data_range input_option data) ;;
  ret tt.

(** The dictionary built in the loop body of [delete_rows]. *)
Definition delete_row_request (sheet_id : string) (row : Z) : batch_request :=
  deleteDimension {|
    sheetId := sheet_id;
    dimension := ROWS_DIMENSION;
    startIndex := row - 1;
    endIndex := row
  |}.

Definition delete_rows (sheet_id : string) (rows : list Z) : M unit :=
  let rows := sorted_reverse (set rows) in
  body <- for_each rows
            (fun row requests =>
               ret (requests ++ [delete_row_request sheet_id row]))
            [] ;;
  execute (batchUpdate (id self) body) ;;
  ret tt.
End Sheet.

(** ** Attribute lookup on a [ConfessionsSheet] instance *)

(** The functions defined by the two [class] statements. *)
Inductive method : Type :=
  | Sheet_init
  | Sheet_get_credentials
  | Sheet_get_data
  | Sheet_add_row
  | Sheet_delete_rows
  | ConfessionsSheet_get_ready_confessions
  | ConfessionsSheet_archive_confessions
  | ConfessionsSheet_add_confession_to_archive
  | ConfessionsSheet_delete_confessions_from_pool.

(** The namespace of [class Sheet(object)]: one entry per [def]. *)
Definition Sheet_namespace : gmap string method :=
  list_to_map [
    ("__init__", Sheet_init);
    ("_get_credentials", Sheet_get_credentials);
    ("get_data", Sheet_get_data);
    ("add_row", Sheet_add_row);
    ("delete_rows", Sheet_delete_rows)
  ].

(** The namespace of [class ConfessionsSheet(Sheet)]. *)
Definition ConfessionsSheet_namespace : gmap string method :=
  list_to_map [
    ("get_ready_confessions", ConfessionsSheet_get_ready_confessions);
    ("archive_confessions", ConfessionsSheet_archive_confessions);
    ("_add_confession_to_archive", ConfessionsSheet_add_confession_to_archive);
    ("_delete_confessions_from_pool",
       ConfessionsSheet_delete_confessions_from_pool)
  ].

(** The attributes [__init__] assigns on the instance. *)
Definition instance_attributes : list string :=
  ["id"; "credentials"; "connection"; "service"].

Inductive attribute : Type :=
  | InstanceAttribute (name : string)
  | BoundMethod (f : method).

(** [self.name] for a [ConfessionsSheet]: the instance, then the class,
    then its base [Sheet]; neither class defines [__getattr__].  The
    attributes every [object] has ([__class__], [__dict__], ...) are left
    out: the program names none of them. *)
Definition getattr (name : string) : M attribute :=
  if decide (name ∈ instance_attributes) then ret (InstanceAttribute name)
  else match ConfessionsSheet_namespace !! name with
       | Some f => ret (BoundMethod f)
       | None =>
           match Sheet_namespace !! name with
           | Some f => ret (BoundMethod f)
           | None => raise (AttributeError "ConfessionsSheet" name)
           end
       end.

(** The row numbers in a list of values, when all of them are [int]. *)
Definition as_ints (vs : list value) : option (list Z) :=
  mapM (fun v => match v with VInt n => Some n | VStr _ => None end) vs.

(** ** class ConfessionsSheet(Sheet) *)

Section ConfessionsSheet.
Context (self : Sheet).

(** The call [f(sheet_id, rows)] of an attribute with a worksheet id and
    a list.  Of the methods, [delete_rows] takes these arguments, and
    its [row - 1] wants integers; [add_row] would take them as [data]
    and [data_range], which they are not; the others take fewer
    arguments; an instance attribute is not called. *)
Definition call (f : attribute) (sheet_id : string) (rows : list value)
    : M unit :=
  match f with
  | BoundMethod Sheet_delete_rows =>
      match as_ints rows with
      | Some rows => delete_rows self sheet_id rows
      | None => raise TypeError
      end
  | _ => raise TypeError
  end.

(** The body of the loop of [get_ready_confessions], on the pair that
    [enumerate] yields and the list built so far. *)
Definition classify (item : Z * raw_row)
    (processed_confessions : list confession_dict)
    : M (list confession_dict) :=
  let '(number, confession) := item in
  if decide (length confession = CONFESSION_READY_LENGTH) then
    date <- index confession DATE_RECEIVED_INDEX ;;
    text <- index confession CONFESSION_INDEX ;;
    let data : confession_dict :=
      list_to_map [
        (DATE_PUBLISHED_DICT_KEY, VStr date);
        (CONFESSION_DICT_KEY, VStr text);
        (LINE_NUMBER_DICT_KEY, VInt (number + 1))
      ] in
    ret (processed_confessions ++ [data])
  else ret processed_confessions.

Definition get_ready_confessions : M (list confession_dict) :=
  raw_confessions <- get_data self READY_CONFESSIONS_A1_FORMAT ;;
  for_each (enumerate raw_confessions) classify [].

Definition _add_confession_to_archive (confession : confession_dict)
    : M unit :=
  current_time <- now ;;
  date <- getitem confession DATE_PUBLISHED_DICT_KEY ;;
  let published := strftime current_time PUBLISHED_TIME_FORMAT in
  text <- getitem confession CONFESSION_DICT_KEY ;;
  let row := [date; VStr published; text] in
  add_row self row ARCHIVE_RANGE true.

Definition _delete_confessions_from_pool (confessions : list confession_dict)
    : M unit :=
  line_numbers <- for_each confessions
                    (fun confession numbers =>
                       n <- getitem confession LINE_NUMBER_DICT_KEY ;;
                       ret (numbers ++ [n]))
                    [] ;;
  delete_row <- getattr "delete_row" ;;
  call delete_row CONFESSION_SHEET_ID line_numbers.

Definition archive_confessions (confessions : list confession_dict)
    : M unit :=
  for_each confessions
    (fun confession _ => _add_confession_to_archive confession) tt ;;
  _delete_confessions_from_pool confessions.
End ConfessionsSheet.

(** ** Notions used to state the properties *)

(** The Confession Record with the given fields, as a dictionary. *)
Definition confession_record (date text : string) (line_number : Z)
    : confession_dict :=
  list_to_map [
    ("Date Published", VStr date);
    ("Confession", VStr text);
    ("Line Number", VInt line_number)
  ].

(** A fetched row, with its position, is ready when it has three cells. *)
Definition ready (p : Z * raw_row) : Prop := length p.2 = 3%nat.

#[global] Instance ready_dec p : Decision (ready p) :=
  decide (length p.2 = 3%nat).

(** The record [rec] is the one made from the row [p.2] at position
    [p.1]. *)
Definition record_of (p : Z * raw_row) (rec : confession_dict) : Prop :=
  ∃ date text marker,
    p.2 = [date; text; marker] ∧ rec = confession_record date text (p.1 + 1).

(** The rows a response carries: none when ["values"] is absent. *)
Definition fetched (r : response) : list raw_row := default [] (values r).

(** The world after one more request. *)
Definition after (w : world) (req : request) : world :=
  {| sent := sent w ++ [req]; ticks := ticks w |}.

(** The outcome of a call whose result is dropped. *)
Definition acknowledged (o : outcome response) : outcome unit :=
  match o with
  | Returned _ => Returned tt
  | Raised e => Raised e
  end.

(** The row a deletion request removes, counted from 1. *)
Definition target_row (r : batch_request) : Z :=
  match r with deleteDimension g => endIndex g end.

(** The number of rows a deletion request removes. *)
Definition rows_deleted (r : batch_request) : Z :=
  match r with deleteDimension g => endIndex g - startIndex g end.

Definition is_append (self : Sheet) (r : request) : Prop :=
  ∃ row, r = values_append (id self) ARCHIVE_RANGE RAW_INPUT_OPTION row.

Definition is_batchUpdate (r : request) : Prop :=
  ∃ spreadsheet body, r = batchUpdate spreadsheet body.

(** The timestamp pattern month/day-of-year/year hour:minute:second. *)
Definition published_stamp (t : datetime) : string :=
  decimal 2 (month t) +:+ "/" +:+ decimal 3 (day_of_year t) +:+ "/" +:+
  decimal 4 (year t) +:+ " " +:+
  decimal 2 (hour t) +:+ ":" +:+ decimal 2 (minute t) +:+ ":" +:+
  decimal 2 (second t).

(** ** Sample data *)

Module Sample.
Definition sheet : Sheet := {| id := "1eyPP0nEnivMe9fS_y1Z8EKwY02f8rETxKK1RmaRlKYs" |}.

Definition noon : datetime :=
  {| year := 2017; month := 3; day := 1; hour := 12; minute := 0; second := 9 |}.

(** Rows of lengths 1, 2, 3, 2, 3. *)
Definition rows : list raw_row :=
  [ ["d1"];
    ["d2"; "c2"];
    ["2023-01-01 10:00:00"; "hello world"; "x"];
    ["d4"; "c4"];
    ["d5"; "c5"; "y"] ].

(** One ready row, at position 0. *)
Definition single : list raw_row :=
  [ ["2023-01-01 10:00:00"; "hello world"; "x"] ].

(** The records of the two ready rows of [rows]. *)
Definition third : confession_dict :=
  confession_record "2023-01-01 10:00:00" "hello world" 3.
Definition fifth : confession_dict := confession_record "d5" "c5" 5.

(** A service that holds [data] in every range and accepts every edit. *)
Definition serving (data : option (list raw_row)) : environment :=
  {| service := fun _ _ => Returned {| values := data |};
     clock := fun _ => noon |}.

Definition start : world := {| sent := []; ticks := 0 |}.
End Sample.

(** ** Further notions: line numbers, archive runs, the effect of a batch *)

(** The line numbers of the ready rows among the fetched [rows], in the
    order of the rows. *)
Definition ready_line_numbers (rows : list raw_row) : list Z :=
  (fun p : Z * raw_row => p.1 + 1) <$> filter ready (enumerate rows).

(** The append that archives the date [fields.1] and the text [fields.2]
    at the [tick]-th reading of the clock. *)
Definition archive_request (self : Sheet) (env : environment) (tick : nat)
    (fields : value * value) : request :=
  values_append (id self) ARCHIVE_RANGE RAW_INPUT_OPTION
    [fields.1; VStr (published_stamp (clock env tick)); fields.2].

(** The appends for a list of dates and texts, the first at the reading
    [start], each next one at the next reading. *)
Definition archive_requests (self : Sheet) (env : environment) (start : nat)
    (fields : list (value * value)) : list request :=
  imap (fun k f => archive_request self env (start + k) f) fields.

(** The confession holds the date [f.1] and the text [f.2]. *)
Definition has_fields (c : confession_dict) (f : value * value) : Prop :=
  c !! DATE_PUBLISHED_DICT_KEY = Some f.1 ∧ c !! CONFESSION_DICT_KEY = Some f.2.

(** The service answers the requests number [from], ..., [from + count - 1]
    that it receives, whatever they are. *)
Definition accepts (env : environment) (from count : nat) : Prop :=
  ∀ hist req, (from ≤ length hist < from + count)%nat →
    ∃ r, service env hist req = Returned r.

(** The service raises [e] on the request number [n] that it receives. *)
Definition fails_at (env : environment) (n : nat) (e : exn) : Prop :=
  ∀ hist req, length hist = n → service env hist req = Raised e.

(** What one [deleteDimension] on rows does to the rows of a worksheet:
    the rows from [startIndex] up to, not including, [endIndex] go, and
    the rows after them move up. *)
Definition apply_request {A} (req : batch_request) (rows : list A) : list A :=
  match req with
  | deleteDimension g =>
      take (Z.to_nat (startIndex g)) rows ++ drop (Z.to_nat (endIndex g)) rows
  end.

(** The requests of a batch take effect one after the other. *)
Definition apply_batch {A} (requests : list batch_request) (rows : list A)
    : list A :=
  foldl (fun rows req => apply_request req rows) rows requests.

(** The worksheet without the rows whose number, counted from 1, is in
    [numbers]. *)
Definition without_rows {A} (numbers : list Z) (rows : list A) : list A :=
  (filter (fun p : Z * A => p.1 + 1 ∉ numbers) (enumerate rows)).*2.


(** ** More sample data *)

Module Cases.
(** A service that raises [e] on the request number [n] and accepts every
    other one. *)
Definition failing (n : nat) (e : exn) : environment :=
  {| service := fun hist _ =>
       if decide (length hist = n) then Raised e
       else Returned {| values := None |};
     clock := fun _ => Sample.noon |}.

(** The dates and texts of the two sample records. *)
Definition fields : list (value * value) :=
  [ (VStr "2023-01-01 10:00:00", VStr "hello world"); (VStr "d5", VStr "c5") ].

(** A record without its text. *)
Definition no_text : confession_dict :=
  delete CONFESSION_DICT_KEY Sample.fifth.
End Cases.

(** * [bot/server.py] *)

Module Server.

Definition LOGS_DIRECTORY : string := "".
Definition LOG_FILE_PREFIX : string := "".

(** The exceptions [main] tells apart, the one its own handler can raise,
    and any other, by name. *)
Inductive exception : Type :=
  | KeyboardInterrupt
  | UnavailableResourseError
  | UnboundLocalError (name : string)
  | OtherError (name : string).

Inductive attempt (A : Type) : Type :=
  | Gives (a : A)
  | Throws (e : exception).
Arguments Gives {A} a.
Arguments Throws {A} e.

(** What [main] calls, in the order it calls it. *)
Inductive call : Type :=
  | called_setup_logger (logs_directory log_file_prefix : string)
  | called_ConfessionManager
  | called_run.

(** The names [server.py] imports; their code is in other modules.
    [manager] is the type of a [ConfessionManager] instance. *)
Record imports (manager : Type) : Type := {
  setup_logger : string → string → attempt unit;
  ConfessionManager : attempt manager;
  run : manager → attempt unit
}.
Arguments setup_logger {manager} _ _ _.
Arguments ConfessionManager {manager} _.
Arguments run {manager} _ _.

Section main.
Context {manager : Type} (m : imports manager).

(** The [try] block: the calls made, the local variable [server] ([None]
    while it is unbound) and how the block ends. *)
Definition try_block : list call * option manager * attempt unit :=
  match ConfessionManager m with
  | Throws e => ([called_ConfessionManager], None, Throws e)
  | Gives server =>
      ([called_ConfessionManager; called_run], Some server, run m server)
  end.

(** The [except] clauses, tried in order on an exception of the block.
    [del server] needs [server] to be bound. *)
Definition except (server : option manager) (e : exception) : attempt unit :=
  match e with
  | KeyboardInterrupt =>
      match server with
      | Some _ => Gives tt
      | None => Throws (UnboundLocalError "server")
      end
  | UnavailableResourseError => Gives tt
  | _ => Throws e
  end.

Definition main : list call * attempt unit :=
  match setup_logger m LOGS_DIRECTORY LOG_FILE_PREFIX with
  | Throws e => ([called_setup_logger LOGS_DIRECTORY LOG_FILE_PREFIX], Throws e)
  | Gives _ =>
      let '(calls, server, ended) := try_block in
      (called_setup_logger LOGS_DIRECTORY LOG_FILE_PREFIX :: calls,
       match ended with
       | Gives _ => Gives tt
       | Throws e => except server e
       end)
  end.
End main.

(** Imports for the examples: the logger works, the constructor and [run]
    end as given. *)
Definition ending (constructed : attempt unit) (ran : attempt unit)
    : imports unit :=
  {| setup_logger := fun _ _ => Gives tt;
     ConfessionManager := constructed;
     run := fun _ => ran |}.

(** Imports whose logger setup raises [e]. *)
Definition no_logger (e : exception) : imports unit :=
  {| setup_logger := fun _ _ => Throws e;
     ConfessionManager := Gives tt;
     run := fun _ => Gives tt |}.

End Server.

(** * [Sheet._get_credentials] *)

Module Credentials.

Definition SCOPES : string := "https://www.googleapis.com/auth/spreadsheets".
Definition APPLICATION_NAME : string := "Confession Manager".

(** What the program looks at in a credentials object. *)
Record credentials : Type := {
  invalid : bool;
  token : string
}.

(** The flow object: what it was made from, and the [user_agent] attribute
    once it is assigned. *)
Record flow : Type := {
  client_secrets : string;
  scope : string;
  user_agent : option string
}.

(** The calls that reach the file system, the credentials store and the
    authorization flow. *)
Inductive host_call : Type :=
  | os_path_exists (path : string)
  | os_makedirs (path : string)
  | Storage_get (path : string)
  | flow_from_clientsecrets (filename scope : string)
  | run_flow (f : flow) (store : string).

Inductive ended (A : Type) : Type :=
  | Fine (a : A)
  | Error (name : string).
Arguments Fine {A} a.
Arguments Error {A} name.

(** The machine the program runs on.  Each answer may depend on the calls
    made before.  [Storage.get] answers [None] when nothing usable is
    stored. *)
Record host : Type := {
  expanduser : string → string;
  path_exists : list host_call → string → bool;
  makedirs : list host_call → string → ended unit;
  stored : list host_call → string → option credentials;
  secrets_read : list host_call → string → ended unit;
  authorized : list host_call → flow → string → ended credentials
}.

(** A computation on the host: it extends the list of calls, and ends
    fine or with an exception. *)
Definition action (A : Type) : Type :=
  host → list host_call → ended A * list host_call.

Definition hret {A} (a : A) : action A := fun _ t => (Fine a, t).

Definition hbind {A B} (m : action A) (k : A → action B) : action B :=
  fun h t =>
    match m h t with
    | (Fine a, t') => k a h t'
    | (Error n, t') => (Error n, t')
    end.

Declare Scope host_scope.
Delimit Scope host_scope with host.
Notation "x <- m ;; k" := (hbind m (fun x => k))
  (at level 100, m at next level, right associativity) : host_scope.
Notation "m ;; k" := (hbind m (fun _ => k))
  (at level 100, right associativity) : host_scope.

Definition call_exists (path : string) : action bool :=
  fun h t => (Fine (path_exists h t path), t ++ [os_path_exists path]).

Definition call_makedirs (path : string) : action unit :=
  fun h t => (makedirs h t path, t ++ [os_makedirs path]).

Definition call_get (path : string) : action (option credentials) :=
  fun h t => (Fine (stored h t path), t ++ [Storage_get path]).

Definition call_flow_from_clientsecrets (filename scope : string)
    : action flow :=
  fun h t =>
    (match secrets_read h t filename with
     | Fine _ => Fine {| client_secrets := filename; scope := scope;
                         user_agent := None |}
     | Error n => Error n
     end, t ++ [flow_from_clientsecrets filename scope]).

Definition call_run_flow (f : flow) (store : string) : action credentials :=
  fun h t => (authorized h t f store, t ++ [run_flow f store]).

(** [os.path.join(a, b)] with POSIX paths *)
Definition join (a b : string) : string :=
  if String.prefix "/" b then b
  else if decide (a = "") then b
  else if decide (last (String.list_ascii_of_string a) = Some "/"%char)
       then a +:+ b
       else a +:+ "/" +:+ b.

Definition CREDENTIALS_FILE_PATH (h : host) : string :=
  expanduser h "~/client_secret.json".

Definition _get_credentials : action credentials :=
  fun h =>
  (let home_dir := expanduser h "~" in
   let credential_dir := join home_dir ".credentials" in
   found <- call_exists credential_dir ;;
   (if negb found then call_makedirs credential_dir else hret tt) ;;
   let credential_path := join credential_dir "google_sheets.json" in
   credentials <- call_get credential_path ;;
   let perform_authentication :=
     f <- call_flow_from_clientsecrets (CREDENTIALS_FILE_PATH h) SCOPES ;;
     let f := {| client_secrets := client_secrets f; scope := scope f;
                 user_agent := Some APPLICATION_NAME |} in
     call_run_flow f credential_path in
   match credentials with
   | None => perform_authentication
   | Some c => if invalid c then perform_authentication else hret c
   end)%host h.

(** The two paths of [_get_credentials] on the host [h]. *)
Definition credential_dir (h : host) : string :=
  join (expanduser h "~") ".credentials".
Definition credential_path (h : host) : string :=
  join (credential_dir h) "google_sheets.json".

(** The calls up to the reading of the store, when the directory is there
    ([found]) and when it has to be made. *)
Definition before_store (h : host) (found : bool) : list host_call :=
  os_path_exists (credential_dir h)
  :: (if found then [] else [os_makedirs (credential_dir h)]).

Definition is_flow_call (c : host_call) : Prop :=
  match c with
  | flow_from_clientsecrets _ _ | run_flow _ _ => True
  | _ => False
  end.

(** A host with a home directory, with or without the credentials
    directory, with [kept] in the store, where the directory can be made
    when [writable], every other call succeeds and the flow grants
    [fresh]. *)
Definition machine (found writable : bool) (kept : option credentials)
    (fresh : credentials) : host :=
  {| expanduser := fun p =>
       if decide (p = "~") then "/home/bot" else "/home/bot/client_secret.json";
     path_exists := fun _ _ => found;
     makedirs := fun _ _ => if writable then Fine tt else Error "OSError";
     stored := fun _ _ => kept;
     secrets_read := fun _ _ => Fine tt;
     authorized := fun _ _ _ => Fine fresh |}.

Definition kept_credentials : credentials :=
  {| invalid := false; token := "kept" |}.
Definition expired_credentials : credentials :=
  {| invalid := true; token := "expired" |}.
Definition fresh_credentials : credentials :=
  {| invalid := false; token := "fresh" |}.

End Credentials.

(** * General facts about the interpreter *)

Lemma bind_returned {A B} (m : M A) (k : A → M B) env w a w' :
  m env w = (Returned a, w') → bind m k env w = k a env w'.
Proof. intros H. unfold bind. by rewrite H. Qed.

Lemma bind_raised {A B} (m : M A) (k : A → M B) env w e w' :
  m env w = (Raised e, w') → bind m k env w = (Raised e, w').
Proof. intros H. unfold bind. by rewrite H. Qed.

(** A loop whose body only appends [f x] to a list cannot raise and
    leaves the world alone. *)
Lemma for_each_append {A B} (f : A → B) (xs : list A) (acc : list B) env w :
  for_each xs (fun x s => ret (s ++ [f x])) acc env w
  = (Returned (acc ++ (f <$> xs)), w).
Proof.
  revert acc. induction xs as [|x xs IH]; intros acc; simpl.
  - by rewrite app_nil_r.
  - unfold bind at 1. simpl. rewrite IH. by rewrite <- app_assoc.
Qed.

(** * [Sheet.get_data] *)

Lemma get_data_run self data_range env w :
  get_data self data_range env w
  = (match service env (sent w) (values_get (id self) data_range) with
     | Returned r => Returned (fetched r)
     | Raised e => Raised e
     end, after w (values_get (id self) data_range)).
Proof.
  unfold get_data, bind, execute, after.
  by destruct (service env _ _).
Qed.

(** * [Sheet.delete_rows] *)

Lemma delete_rows_run self sheet_id rows env w :
  delete_rows self sheet_id rows env w
  = (acknowledged
       (service env (sent w)
          (batchUpdate (id self)
             (delete_row_request sheet_id <$> sorted_reverse (set rows)))),
     after w (batchUpdate (id self)
                (delete_row_request sheet_id <$> sorted_reverse (set rows)))).
Proof.
  unfold delete_rows.
  rewrite (bind_returned _ _ _ _ _ _ (for_each_append _ _ _ _ _)).
  unfold bind, execute, after. simpl.
  by destruct (service env _ _).
Qed.

(** C8: when the remote read answers with a result that has no ["values"],
    [get_data] returns the empty sequence; it does not fail. *)
Theorem get_data_no_values_is_empty self data_range env w r :
  service env (sent w) (values_get (id self) data_range) = Returned r →
  values r = None →
  get_data self data_range env w
  = (Returned [], after w (values_get (id self) data_range)).
Proof.
  intros Hs Hv. rewrite get_data_run, Hs. unfold fetched. by rewrite Hv.
Qed.

Lemma get_data_no_values_is_empty_witness :
  service (Sample.serving None) (sent Sample.start)
    (values_get (id Sample.sheet) ARCHIVE_RANGE) = Returned {| values := None |}
  ∧ get_data Sample.sheet ARCHIVE_RANGE (Sample.serving None) Sample.start
    = (Returned [], after Sample.start (values_get (id Sample.sheet) ARCHIVE_RANGE)).
Proof.
  split; [reflexivity|].
  apply (get_data_no_values_is_empty Sample.sheet ARCHIVE_RANGE
           (Sample.serving None) Sample.start {| values := None |});
    reflexivity.
Defined.

(** ** The order of the deletion batch *)

#[global] Instance descending_total : Total descending.
Proof. intros x y. unfold descending. lia. Qed.

#[global] Instance descending_trans : Transitive descending.
Proof. intros x y z. unfold descending. lia. Qed.

Lemma sorted_reverse_elem_of rows n :
  n ∈ sorted_reverse (set rows) ↔ n ∈ rows.
Proof.
  unfold sorted_reverse, set.
  rewrite merge_sort_Permutation, elem_of_elements.
  apply elem_of_list_to_set.
Qed.

Lemma sorted_reverse_NoDup rows : NoDup (sorted_reverse (set rows)).
Proof.
  unfold sorted_reverse. rewrite merge_sort_Permutation. apply NoDup_elements.
Qed.

(** Without repetitions, descending is strictly descending. *)
Lemma descending_NoDup_strict (l : list Z) :
  StronglySorted descending l → NoDup l → StronglySorted (fun x y => y < x) l.
Proof.
  induction 1 as [|x l Hl IH Hx]; intros Hnd; [constructor|].
  apply NoDup_cons in Hnd as [Hnotin Hnd].
  constructor; [by apply IH|].
  rewrite Forall_forall in Hx |- *. intros y Hy.
  specialize (Hx y Hy). unfold descending in Hx.
  assert (y ≠ x) by (intros ->; done). lia.
Qed.

Lemma sorted_reverse_strict rows :
  StronglySorted (fun x y => y < x) (sorted_reverse (set rows)).
Proof.
  apply descending_NoDup_strict; [|apply sorted_reverse_NoDup].
  apply StronglySorted_merge_sort; apply _.
Qed.

Lemma sorted_reverse_sample : sorted_reverse (set [5; 2; 2; 8]) = [8; 5; 2].
Proof. vm_compute. reflexivity. Qed.

(** C3: the batch that [delete_rows] builds targets the distinct row
    numbers of its input, each once, in strictly descending order; for the
    input [5, 2, 2, 8] these are the rows 8, 5, 2 in that order. *)
Theorem delete_rows_distinct_descending self sheet_id rows env w :
  (∃ targets,
     sent (delete_rows self sheet_id rows env w).2
     = sent w ++ [batchUpdate (id self) (delete_row_request sheet_id <$> targets)]
     ∧ target_row <$> (delete_row_request sheet_id <$> targets) = targets
     ∧ StronglySorted (fun x y => y < x) targets
     ∧ NoDup targets
     ∧ ∀ n, n ∈ targets ↔ n ∈ rows)
  ∧ sent (delete_rows self sheet_id [5; 2; 2; 8] env w).2
    = sent w ++ [batchUpdate (id self) (delete_row_request sheet_id <$> [8; 5; 2])].
Proof.
  split.
  - exists (sorted_reverse (set rows)). rewrite delete_rows_run.
    split; [reflexivity|]. split.
    { rewrite <- list_fmap_compose. rewrite <- (list_fmap_id (sorted_reverse _)) at 2.
      by apply list_fmap_ext. }
    split; [apply sorted_reverse_strict|].
    split; [apply sorted_reverse_NoDup|].
    apply sorted_reverse_elem_of.
  - rewrite delete_rows_run. simpl. by rewrite sorted_reverse_sample.
Qed.

(** C7: for every row number [n] of the deduplicated, descending input the
    batch holds, at the same place, a [deleteDimension] request with the
    given worksheet id, the dimension ["ROWS"], [startIndex = n - 1] and
    [endIndex = n]; each request deletes one row. *)
Theorem delete_rows_request_shape self sheet_id rows env w :
  ∃ requests,
    sent (delete_rows self sheet_id rows env w).2
    = sent w ++ [batchUpdate (id self) requests]
    ∧ requests
      = (fun n => deleteDimension {| sheetId := sheet_id;
                                     dimension := "ROWS";
                                     startIndex := n - 1;
                                     endIndex := n |})
        <$> sorted_reverse (set rows)
    ∧ Forall (fun r => rows_deleted r = 1) requests.
Proof.
  exists (delete_row_request sheet_id <$> sorted_reverse (set rows)).
  rewrite delete_rows_run. split; [reflexivity|]. split; [reflexivity|].
  apply Forall_fmap, Forall_forall. intros n _. simpl. lia.
Qed.

(** C10: with an empty list of rows [delete_rows] still executes one batch
    update, whose ["requests"] list is empty. *)
Theorem delete_rows_empty_still_calls self sheet_id env w :
  delete_rows self sheet_id [] env w
  = (acknowledged (service env (sent w) (batchUpdate (id self) [])),
     {| sent := sent w ++ [batchUpdate (id self) []]; ticks := ticks w |}).
Proof. by rewrite delete_rows_run. Qed.

(** * [ConfessionsSheet.get_ready_confessions] *)

Lemma classify_ready k date text marker acc env w :
  classify (k, [date; text; marker]) acc env w
  = (Returned (acc ++ [confession_record date text (k + 1)]), w).
Proof. reflexivity. Qed.

Lemma classify_skip k row acc env w :
  length row ≠ 3%nat → classify (k, row) acc env w = (Returned acc, w).
Proof.
  intros H. unfold classify, CONFESSION_READY_LENGTH.
  by destruct (decide (length row = 3%nat)).
Qed.

(** The loop, started at any position [k] with any list [acc]: it cannot
    raise, it leaves the world alone, and it appends one record per ready
    row, in order. *)
Lemma classify_loop env w (rows : list raw_row) : ∀ (k : nat) acc,
  ∃ recs,
    for_each (imap (fun i x => (Z.of_nat (k + i), x)) rows) classify acc env w
    = (Returned (acc ++ recs), w)
    ∧ Forall2 record_of
        (filter ready (imap (fun i x => (Z.of_nat (k + i), x)) rows)) recs.
Proof.
  induction rows as [|row rows IH]; intros k acc.
  - exists []. split; [simpl; by rewrite app_nil_r | constructor].
  - rewrite imap_cons.
    rewrite (imap_ext _ (fun i x => (Z.of_nat (S k + i), x)))
      by (intros i x _; simpl; f_equal; lia).
    rewrite filter_cons. cbn [for_each].
    destruct (decide (ready (Z.of_nat (k + 0), row))) as [Hr|Hr].
    + unfold ready in Hr. simpl in Hr.
      destruct row as [|date [|text [|marker [|]]]]; try discriminate.
      destruct (IH (S k)
                  (acc ++ [confession_record date text (Z.of_nat (k + 0) + 1)]))
        as (recs & Hrun & Hrecs).
      exists (confession_record date text (Z.of_nat (k + 0) + 1) :: recs).
      split.
      * rewrite (bind_returned _ _ _ _ _ _ (classify_ready _ _ _ _ _ _ _)).
        rewrite Hrun. by rewrite <- app_assoc.
      * constructor; [|done]. by exists date, text, marker.
    + destruct (IH (S k) acc) as (recs & Hrun & Hrecs).
      exists recs. split; [|done].
      by rewrite (bind_returned _ _ _ _ _ _ (classify_skip _ _ _ _ _ Hr)).
Qed.

Lemma get_ready_confessions_run self env w r :
  service env (sent w) (values_get (id self) READY_CONFESSIONS_A1_FORMAT)
  = Returned r →
  ∃ recs,
    get_ready_confessions self env w
    = (Returned recs, after w (values_get (id self) READY_CONFESSIONS_A1_FORMAT))
    ∧ Forall2 record_of (filter ready (enumerate (fetched r))) recs.
Proof.
  intros Hs. unfold get_ready_confessions.
  destruct (classify_loop env
              (after w (values_get (id self) READY_CONFESSIONS_A1_FORMAT))
              (fetched r) 0 []) as (recs & Hrun & Hrecs).
  exists recs. split; [|done].
  erewrite bind_returned; [|rewrite get_data_run, Hs; reflexivity].
  exact Hrun.
Qed.

Lemma elem_of_enumerate {A} (xs : list A) (p : Z * A) :
  p ∈ enumerate xs ↔ ∃ i : nat, p.1 = Z.of_nat i ∧ xs !! i = Some p.2.
Proof.
  unfold enumerate. rewrite elem_of_lookup_imap. split.
  - intros (i & x & -> & Hx). by exists i.
  - intros (i & Hi & Hx). exists i, p.2. split; [|done].
    destruct p; simpl in *; by subst.
Qed.

(** The part of [enumerate] around position [i]. *)
Lemma enumerate_split {A} (xs : list A) (i : nat) (x : A) :
  xs !! i = Some x →
  enumerate xs
  = enumerate (take i xs) ++ (Z.of_nat i, x)
      :: imap (fun j y => (Z.of_nat (S i + j), y)) (drop (S i) xs).
Proof.
  intros Hx. unfold enumerate.
  rewrite <- (take_drop_middle xs i x Hx) at 1.
  rewrite imap_app, imap_cons.
  assert (length (take i xs) = i) as Hlen.
  { rewrite length_take. apply lookup_lt_Some in Hx. lia. }
  rewrite Hlen. do 2 f_equal.
  - by rewrite Nat.add_0_r.
  - apply imap_ext. intros j y _. simpl. f_equal. lia.
Qed.

(** C2: [get_ready_confessions] returns, and does not raise; its records
    are, in order, those made from the fetched rows with three cells, each
    numbered with its position plus one; rows of any other length leave no
    trace.  For rows of lengths 1, 2, 3, 2, 3 the result has the two
    records numbered 3 and 5. *)
Theorem get_ready_confessions_selects_ready_rows self env w r :
  service env (sent w) (values_get (id self) READY_CONFESSIONS_A1_FORMAT)
  = Returned r →
  (∃ recs,
     get_ready_confessions self env w
     = (Returned recs, after w (values_get (id self) READY_CONFESSIONS_A1_FORMAT))
     ∧ Forall2 record_of (filter ready (enumerate (fetched r))) recs
     ∧ (fun rec => rec !! LINE_NUMBER_DICT_KEY) <$> recs
       = (fun p => Some (VInt (p.1 + 1)))
         <$> filter (fun p => length p.2 = 3%nat) (enumerate (fetched r)))
  ∧ length <$> Sample.rows = [1; 2; 3; 2; 3]%nat
  ∧ (get_ready_confessions Sample.sheet (Sample.serving (Some Sample.rows))
       Sample.start).1
    = Returned [confession_record "2023-01-01 10:00:00" "hello world" 3;
                confession_record "d5" "c5" 5].
Proof.
  intros Hs. split; [|split; [reflexivity | vm_compute; reflexivity]].
  destruct (get_ready_confessions_run self env w r Hs) as (recs & Hrun & Hrecs).
  exists recs. split; [done|]. split; [done|].
  assert ((fun rec : confession_dict => rec !! LINE_NUMBER_DICT_KEY) <$> recs
          = (fun p : Z * raw_row => Some (VInt (p.1 + 1)))
            <$> filter ready (enumerate (fetched r))) as Hlines; [|exact Hlines].
  clear Hrun.
  induction Hrecs as [|p rec ps recs' (date & text & marker & _ & ->) _ IH];
    [done|].
  rewrite !fmap_cons. f_equal. exact IH.
Qed.

Lemma get_ready_confessions_selects_ready_rows_witness :
  service (Sample.serving (Some Sample.rows)) (sent Sample.start)
    (values_get (id Sample.sheet) READY_CONFESSIONS_A1_FORMAT)
  = Returned {| values := Some Sample.rows |}
  ∧ ∃ recs,
      get_ready_confessions Sample.sheet (Sample.serving (Some Sample.rows))
        Sample.start
      = (Returned recs,
         after Sample.start
           (values_get (id Sample.sheet) READY_CONFESSIONS_A1_FORMAT))
      ∧ Forall2 record_of
          (filter ready (enumerate (fetched {| values := Some Sample.rows |})))
          recs.
Proof.
  split; [reflexivity|].
  destruct (get_ready_confessions_selects_ready_rows Sample.sheet
              (Sample.serving (Some Sample.rows)) Sample.start
              {| values := Some Sample.rows |} eq_refl)
    as [(recs & Hrun & Hrecs & _) _].
  by exists recs.
Defined.

(** C4: the record made from a three-cell row at position [i] holds cell 0
    as its date, cell 1 as its text and [i + 1] as its line number, and
    nothing of cell 2.  It stands in the result after the records of the
    ready rows before position [i]. *)
Theorem get_ready_confessions_field_mapping self env w r (i : nat) row :
  service env (sent w) (values_get (id self) READY_CONFESSIONS_A1_FORMAT)
  = Returned r →
  fetched r !! i = Some row →
  length row = 3%nat →
  ∃ recs date text,
    get_ready_confessions self env w
    = (Returned recs, after w (values_get (id self) READY_CONFESSIONS_A1_FORMAT))
    ∧ row !! 0%nat = Some date
    ∧ row !! 1%nat = Some text
    ∧ recs !! length (filter ready (enumerate (take i (fetched r))))
      = Some (confession_record date text (Z.of_nat i + 1)).
Proof.
  intros Hs Hrow Hlen.
  destruct (get_ready_confessions_run self env w r Hs) as (recs & Hrun & Hrecs).
  destruct row as [|date [|text [|marker [|]]]]; try discriminate.
  exists recs, date, text. do 3 (split; [done|]).
  rewrite (enumerate_split _ _ _ Hrow), filter_app, filter_cons in Hrecs.
  destruct (decide (ready (Z.of_nat i, [date; text; marker]))) as [_|Hn];
    [|by destruct Hn].
  apply Forall2_app_inv_l in Hrecs as (before & rest & Hbefore & Hrest & ->).
  apply Forall2_cons_inv_l in Hrest
    as (rec & rest' & (d & t & m & Hcells & ->) & _ & ->).
  simpl in Hcells. injection Hcells as <- <- <-.
  rewrite (Forall2_length _ _ _ Hbefore).
  by rewrite lookup_app_r, Nat.sub_diag by lia.
Qed.

Lemma get_ready_confessions_field_mapping_witness :
  ∃ recs,
    get_ready_confessions Sample.sheet (Sample.serving (Some Sample.single))
      Sample.start
    = (Returned recs,
       after Sample.start
         (values_get (id Sample.sheet) READY_CONFESSIONS_A1_FORMAT))
    ∧ recs !! 0%nat
      = Some (confession_record "2023-01-01 10:00:00" "hello world" 1).
Proof.
  destruct (get_ready_confessions_field_mapping Sample.sheet
              (Sample.serving (Some Sample.single)) Sample.start
              {| values := Some Sample.single |} 0
              ["2023-01-01 10:00:00"; "hello world"; "x"]
              eq_refl eq_refl eq_refl)
    as (recs & date & text & Hrun & Hdate & Htext & Hrec).
  exists recs. split; [exact Hrun|].
  injection Hdate as <-. injection Htext as <-. exact Hrec.
Defined.

(** * [strftime] on the publication format *)

Lemma append_empty_r (s : string) : s +:+ "" = s.
Proof. induction s as [|c s IH]; [done|]. change (String c (s +:+ "") = String c s). by f_equal. Qed.

Lemma strftime_directive t d s rest :
  directive d t = Some s →
  strftime t (String "%" (String d rest)) = s +:+ strftime t rest.
Proof. intros H. cbn [strftime]. rewrite H. by destruct (decide _). Qed.

Lemma strftime_literal t c rest :
  c ≠ "%"%char → strftime t (String c rest) = String c (strftime t rest).
Proof. intros H. cbn [strftime]. by destruct (decide _). Qed.

Lemma strftime_published t :
  strftime t PUBLISHED_TIME_FORMAT = published_stamp t.
Proof.
  unfold published_stamp, PUBLISHED_TIME_FORMAT.
  repeat first
    [ rewrite strftime_literal by discriminate
    | erewrite strftime_directive by reflexivity ].
  change (strftime t "") with "".
  by rewrite append_empty_r.
Qed.

(** * Archiving *)

Section archive.
Context (self : Sheet).

Lemma add_confession_run confession env w date text :
  confession !! DATE_PUBLISHED_DICT_KEY = Some date →
  confession !! CONFESSION_DICT_KEY = Some text →
  _add_confession_to_archive self confession env w
  = (acknowledged
       (service env (sent w)
          (values_append (id self) ARCHIVE_RANGE RAW_INPUT_OPTION
             [date; VStr (strftime (clock env (ticks w)) PUBLISHED_TIME_FORMAT);
              text])),
     {| sent := sent w ++
          [values_append (id self) ARCHIVE_RANGE RAW_INPUT_OPTION
             [date; VStr (strftime (clock env (ticks w)) PUBLISHED_TIME_FORMAT);
              text]];
        ticks := S (ticks w) |}).
Proof.
  intros Hd Ht.
  unfold _add_confession_to_archive, add_row, bind, now, getitem, execute.
  rewrite Hd, Ht. cbn -[strftime].
  by destruct (service env _ _).
Qed.

Lemma add_confession_no_date confession env w :
  confession !! DATE_PUBLISHED_DICT_KEY = None →
  _add_confession_to_archive self confession env w
  = (Raised (KeyError DATE_PUBLISHED_DICT_KEY),
     {| sent := sent w; ticks := S (ticks w) |}).
Proof.
  intros Hd. unfold _add_confession_to_archive, bind, now, getitem.
  by rewrite Hd.
Qed.

Lemma add_confession_no_text confession env w date :
  confession !! DATE_PUBLISHED_DICT_KEY = Some date →
  confession !! CONFESSION_DICT_KEY = None →
  _add_confession_to_archive self confession env w
  = (Raised (KeyError CONFESSION_DICT_KEY),
     {| sent := sent w; ticks := S (ticks w) |}).
Proof.
  intros Hd Ht. unfold _add_confession_to_archive, bind, now, getitem.
  by rewrite Hd, Ht.
Qed.

(** Whatever the confession, archiving it sends at most an append. *)
Lemma add_confession_sends confession env w :
  ∃ o appends,
    _add_confession_to_archive self confession env w
    = (o, {| sent := sent w ++ appends; ticks := S (ticks w) |})
    ∧ Forall (is_append self) appends.
Proof.
  destruct (confession !! DATE_PUBLISHED_DICT_KEY) as [date|] eqn:Hd.
  - destruct (confession !! CONFESSION_DICT_KEY) as [text|] eqn:Ht.
    + eexists _, [_]. split; [by apply add_confession_run|].
      repeat constructor. by eexists.
    + exists (Raised (KeyError CONFESSION_DICT_KEY)), [].
      split; [|constructor].
      rewrite (add_confession_no_text _ _ _ _ Hd Ht). by rewrite app_nil_r.
  - exists (Raised (KeyError DATE_PUBLISHED_DICT_KEY)), [].
    split; [|constructor].
    rewrite (add_confession_no_date _ _ _ Hd). by rewrite app_nil_r.
Qed.

Lemma archive_loop_sends confessions env w :
  ∃ o appends n,
    for_each confessions
      (fun confession _ => _add_confession_to_archive self confession) tt env w
    = (o, {| sent := sent w ++ appends; ticks := n |})
    ∧ Forall (is_append self) appends.
Proof.
  revert w. induction confessions as [|c cs IH]; intros w.
  - exists (Returned tt), [], (ticks w). split; [|constructor].
    simpl. unfold ret. rewrite app_nil_r. by destruct w.
  - destruct (add_confession_sends c env w) as (o & a1 & Hrun & Ha1).
    cbn [for_each]. unfold bind at 1. rewrite Hrun.
    destruct o as [[]|e].
    + destruct (IH {| sent := sent w ++ a1; ticks := S (ticks w) |})
        as (o' & a2 & n & Hrun' & Ha2).
      exists o', (a1 ++ a2), n. rewrite Hrun'. simpl.
      split; [by rewrite app_assoc | by apply Forall_app].
    + by exists (Raised e), a1, (S (ticks w)).
Qed.

(** The comprehension that collects the line numbers. *)
Lemma line_numbers_loop confessions env w : ∀ acc,
  for_each confessions
    (fun confession numbers =>
       n <- getitem confession LINE_NUMBER_DICT_KEY ;; ret (numbers ++ [n]))
    acc env w
  = (match mapM (fun c : confession_dict => c !! LINE_NUMBER_DICT_KEY) confessions with
     | Some ns => Returned (acc ++ ns)
     | None => Raised (KeyError LINE_NUMBER_DICT_KEY)
     end, w).
Proof.
  induction confessions as [|c cs IH]; intros acc.
  - simpl. by rewrite app_nil_r.
  - cbn [for_each]. unfold bind at 1. unfold bind at 1. unfold getitem.
    cbn [mapM]. destruct (c !! LINE_NUMBER_DICT_KEY) as [n|]; [|done].
    simpl. rewrite IH.
    destruct (mapM _ cs); simpl; [|done]. by rewrite <- app_assoc.
Qed.

Lemma getattr_delete_row env w :
  getattr "delete_row" env w
  = (Raised (AttributeError "ConfessionsSheet" "delete_row"), w).
Proof. reflexivity. Qed.

Lemma delete_confessions_from_pool_run confessions env w :
  _delete_confessions_from_pool self confessions env w
  = (match mapM (fun c : confession_dict => c !! LINE_NUMBER_DICT_KEY) confessions with
     | Some _ => Raised (AttributeError "ConfessionsSheet" "delete_row")
     | None => Raised (KeyError LINE_NUMBER_DICT_KEY)
     end, w).
Proof.
  unfold _delete_confessions_from_pool. unfold bind at 1.
  rewrite line_numbers_loop.
  destruct (mapM _ confessions); [|done].
  by rewrite (bind_raised _ _ _ _ _ _ (getattr_delete_row _ _)).
Qed.

Lemma archive_confessions_run confessions env w :
  ∃ e appends n,
    archive_confessions self confessions env w
    = (Raised e, {| sent := sent w ++ appends; ticks := n |})
    ∧ Forall (is_append self) appends.
Proof.
  destruct (archive_loop_sends confessions env w) as (o & a & n & Hrun & Ha).
  unfold archive_confessions, bind. rewrite Hrun.
  destruct o as [[]|e].
  - rewrite delete_confessions_from_pool_run.
    destruct (mapM _ confessions); by eexists _, a, n.
  - by exists e, a, n.
Qed.
End archive.

(** C5: archiving a confession whose date is [D] and whose text is [T]
    appends to the archive range the three cells [D], the clock reading in
    the pattern month/day-of-year/year hour:minute:second, and [T].  The
    line number has no part in it: changing or removing it changes
    nothing. *)
Theorem add_confession_archive_row self confession env w D T :
  confession !! DATE_PUBLISHED_DICT_KEY = Some D →
  confession !! CONFESSION_DICT_KEY = Some T →
  let request :=
    values_append (id self) "Archive!A:C" "RAW"
      [D; VStr (published_stamp (clock env (ticks w))); T] in
  _add_confession_to_archive self confession env w
  = (acknowledged (service env (sent w) request),
     {| sent := sent w ++ [request]; ticks := S (ticks w) |})
  ∧ (∀ n, _add_confession_to_archive self
            (<[LINE_NUMBER_DICT_KEY := n]> confession) env w
          = _add_confession_to_archive self confession env w)
  ∧ _add_confession_to_archive self
      (delete LINE_NUMBER_DICT_KEY confession) env w
    = _add_confession_to_archive self confession env w.
Proof.
  intros Hd Ht request. subst request.
  rewrite <- strftime_published.
  pose proof (add_confession_run self confession env w D T Hd Ht) as Hrun.
  split; [exact Hrun|]. split.
  - intros n. rewrite Hrun.
    apply add_confession_run; by rewrite lookup_insert_ne.
  - rewrite Hrun.
    apply add_confession_run; by rewrite lookup_delete_ne.
Qed.

Lemma add_confession_archive_row_witness :
  _add_confession_to_archive Sample.sheet (confession_record "D" "T" 7)
    (Sample.serving None) Sample.start
  = (Returned tt,
     {| sent := [values_append (id Sample.sheet) "Archive!A:C" "RAW"
                   [VStr "D"; VStr "03/060/2017 12:00:09"; VStr "T"]];
        ticks := 1 |}).
Proof.
  destruct (add_confession_archive_row Sample.sheet
              (confession_record "D" "T" 7) (Sample.serving None) Sample.start
              (VStr "D") (VStr "T") eq_refl eq_refl) as [Hrun _].
  rewrite Hrun. vm_compute. reflexivity.
Defined.

Lemma dom_confession_record date text n :
  dom (confession_record date text n)
  = {[ "Date Published"; "Confession"; "Line Number" ]}.
Proof.
  unfold confession_record. cbn [list_to_map foldr uncurry fst snd].
  rewrite !dom_insert_L, dom_empty_L. set_solver.
Qed.

(** C9: every record that [get_ready_confessions] returns is a dictionary
    with the three keys ["Date Published"], ["Confession"] and
    ["Line Number"] and no other; cell 0 of its row is under
    ["Date Published"].  The archiver reads under the same keys: the cells
    it appends are the values under ["Date Published"] and ["Confession"],
    and without one of the three keys it raises [KeyError] for that key. *)
Theorem confession_record_keys self env w r recs rec :
  service env (sent w) (values_get (id self) READY_CONFESSIONS_A1_FORMAT)
  = Returned r →
  (get_ready_confessions self env w).1 = Returned recs →
  rec ∈ recs →
  ∃ (i : nat) date text marker,
    fetched r !! i = Some [date; text; marker]
    ∧ rec = list_to_map [("Date Published", VStr date);
                         ("Confession", VStr text);
                         ("Line Number", VInt (Z.of_nat i + 1))]
    ∧ dom rec = {[ "Date Published"; "Confession"; "Line Number" ]}
    ∧ (∀ env' w',
         sent (_add_confession_to_archive self rec env' w').2
         = sent w' ++
           [values_append (id self) ARCHIVE_RANGE RAW_INPUT_OPTION
              [VStr date; VStr (published_stamp (clock env' (ticks w')));
               VStr text]])
    ∧ (∀ env' w',
         (_add_confession_to_archive self (delete "Date Published" rec)
            env' w').1
         = Raised (KeyError "Date Published"))
    ∧ (∀ env' w',
         (_add_confession_to_archive self (delete "Confession" rec) env' w').1
         = Raised (KeyError "Confession"))
    ∧ (∀ env' w',
         (_delete_confessions_from_pool self [delete "Line Number" rec]
            env' w').1
         = Raised (KeyError "Line Number")).
Proof.
  intros Hs Hrun Hrec.
  destruct (get_ready_confessions_run self env w r Hs) as (recs' & Hrun' & Hrecs).
  rewrite Hrun' in Hrun. simpl in Hrun. injection Hrun as ->.
  apply list_elem_of_lookup_1 in Hrec as [j Hj].
  destruct (Forall2_lookup_r _ _ _ _ _ Hrecs Hj)
    as (p & Hp & date & text & marker & Hcells & ->).
  apply list_elem_of_lookup_2, list_elem_of_filter in Hp as [_ Hp].
  apply elem_of_enumerate in Hp as (i & Hi & Hrow).
  rewrite Hcells in Hrow. rewrite Hi.
  exists i, date, text, marker.
  split; [done|]. split; [done|]. split; [apply dom_confession_record|].
  split; [|split; [|split]]; intros env' w'.
  - rewrite <- strftime_published.
    by rewrite (add_confession_run self _ env' w' (VStr date) (VStr text)).
  - by rewrite add_confession_no_date by apply lookup_delete_eq.
  - by rewrite (add_confession_no_text self _ env' w' (VStr date))
      by (by rewrite ?lookup_delete_eq, ?lookup_delete_ne).
  - rewrite delete_confessions_from_pool_run. cbn [mapM].
    change LINE_NUMBER_DICT_KEY with "Line Number".
    by rewrite lookup_delete_eq.
Qed.

Lemma confession_record_keys_witness :
  Sample.fifth ∈ [Sample.third; Sample.fifth]
  ∧ ∃ (i : nat) date text marker,
      Sample.rows !! i = Some [date; text; marker]
      ∧ Sample.fifth
        = list_to_map [("Date Published", VStr date);
                       ("Confession", VStr text);
                       ("Line Number", VInt (Z.of_nat i + 1))].
Proof.
  assert (Sample.fifth ∈ [Sample.third; Sample.fifth]) as Hin
    by (apply list_elem_of_lookup_2 with 1%nat; reflexivity).
  split; [exact Hin|].
  destruct (confession_record_keys Sample.sheet
              (Sample.serving (Some Sample.rows)) Sample.start
              {| values := Some Sample.rows |}
              [Sample.third; Sample.fifth] Sample.fifth
              eq_refl eq_refl Hin)
    as (i & date & text & marker & Hrow & Hrec & _).
  by exists i, date, text, marker.
Defined.

(** C1: the appends come first, one per record and in order, but the
    batched deletion that should follow is never issued.  The call
    [self.delete_row(...)] names an attribute that no class defines (the
    method is [delete_rows]), so every run of [archive_confessions] ends by
    raising, and the requests it has sent are appends only.  On the two
    sample records the run sends the two appends and raises
    [AttributeError]. *)
Theorem archive_confessions_never_deletes self confessions env w :
  (∃ e appends,
     (archive_confessions self confessions env w).1 = Raised e
     ∧ sent (archive_confessions self confessions env w).2 = sent w ++ appends
     ∧ Forall (is_append self) appends
     ∧ Forall (fun req => ¬ is_batchUpdate req) appends)
  ∧ archive_confessions Sample.sheet [Sample.third; Sample.fifth]
      (Sample.serving None) Sample.start
    = (Raised (AttributeError "ConfessionsSheet" "delete_row"),
       {| sent :=
            [values_append (id Sample.sheet) "Archive!A:C" "RAW"
               [VStr "2023-01-01 10:00:00"; VStr "03/060/2017 12:00:09";
                VStr "hello world"];
             values_append (id Sample.sheet) "Archive!A:C" "RAW"
               [VStr "d5"; VStr "03/060/2017 12:00:09"; VStr "c5"]];
          ticks := 2 |}).
Proof.
  split; [|vm_compute; reflexivity].
  destruct (archive_confessions_run self confessions env w)
    as (e & appends & n & Hrun & Happends).
  exists e, appends. rewrite Hrun. do 3 (split; [done|]).
  eapply Forall_impl; [exact Happends|].
  intros req [row ->] (spreadsheet & body & Heq). discriminate.
Qed.

(** C6: on an empty fetched range, whether ["values"] is absent or empty,
    [get_ready_confessions] returns the empty list.  On the empty list
    [archive_confessions] sends nothing, neither an append nor a deletion,
    but it does not complete: the lookup of [delete_row] raises
    [AttributeError]. *)
Theorem archive_confessions_empty_raises self env w :
  archive_confessions self [] env w
  = (Raised (AttributeError "ConfessionsSheet" "delete_row"), w)
  ∧ (∀ clock,
       get_ready_confessions self
         {| service := fun _ _ => Returned {| values := None |};
            clock := clock |} w
       = (Returned [],
          after w (values_get (id self) READY_CONFESSIONS_A1_FORMAT)))
  ∧ (∀ clock,
       get_ready_confessions self
         {| service := fun _ _ => Returned {| values := Some [] |};
            clock := clock |} w
       = (Returned [],
          after w (values_get (id self) READY_CONFESSIONS_A1_FORMAT))).
Proof.
  split; [|split; intros clock; reflexivity].
  unfold archive_confessions. cbn [for_each].
  rewrite (bind_returned _ _ env w tt w eq_refl).
  by rewrite delete_confessions_from_pool_run.
Qed.

(** * Further properties of the classifier *)

Lemma get_ready_confessions_raised self env w e :
  service env (sent w) (values_get (id self) READY_CONFESSIONS_A1_FORMAT)
  = Raised e →
  get_ready_confessions self env w
  = (Raised e, after w (values_get (id self) READY_CONFESSIONS_A1_FORMAT)).
Proof.
  intros Hs. unfold get_ready_confessions.
  apply bind_raised. by rewrite get_data_run, Hs.
Qed.

(** X1: [get_ready_confessions] raises exactly when the read of the range
    raises, and then with the same exception; no fetched row, whatever its
    shape, makes it raise.  In each case it has sent the one read
    request. *)
Theorem get_ready_confessions_fails_only_with_the_read self env w e :
  ((get_ready_confessions self env w).1 = Raised e
   ↔ service env (sent w) (values_get (id self) READY_CONFESSIONS_A1_FORMAT)
     = Raised e)
  ∧ (get_ready_confessions self env w).2
    = after w (values_get (id self) READY_CONFESSIONS_A1_FORMAT).
Proof.
  destruct (service env (sent w)
              (values_get (id self) READY_CONFESSIONS_A1_FORMAT))
    as [r|e'] eqn:Hs.
  - destruct (get_ready_confessions_run self env w r Hs) as (recs & -> & _).
    simpl. split; [|done]. split; discriminate.
  - rewrite (get_ready_confessions_raised self env w e' Hs). simpl.
    split; [|done]. split; congruence.
Qed.

(** Positions of an enumeration, from any start, increase, and so do the
    line numbers made from those that pass a filter. *)
Lemma enumerate_lines_sorted {A} (P : Z * A → Prop) `{∀ p, Decision (P p)}
    (xs : list A) : ∀ k : nat,
  StronglySorted Z.lt
    ((fun p : Z * A => p.1 + 1)
       <$> filter P (imap (fun i x => (Z.of_nat (k + i), x)) xs))
  ∧ Forall (fun n => Z.of_nat k + 1 ≤ n ≤ Z.of_nat k + Z.of_nat (length xs))
      ((fun p : Z * A => p.1 + 1)
         <$> filter P (imap (fun i x => (Z.of_nat (k + i), x)) xs)).
Proof.
  induction xs as [|x xs IH]; intros k.
  - split; constructor.
  - rewrite imap_cons.
    rewrite (imap_ext _ (fun i x => (Z.of_nat (S k + i), x)))
      by (intros i y _; simpl; f_equal; lia).
    destruct (IH (S k)) as [Hsorted Hrange].
    assert (Forall (fun n => Z.of_nat k + 1 < n
                             ∧ n ≤ Z.of_nat k + Z.of_nat (length (x :: xs)))
              ((fun p : Z * A => p.1 + 1)
                 <$> filter P (imap (fun i y => (Z.of_nat (S k + i), y)) xs)))
      as Hrest.
    { eapply Forall_impl; [exact Hrange|]. intros n Hn. simpl in *. lia. }
    rewrite filter_cons. destruct (decide (P _)).
    + rewrite fmap_cons. split.
      * constructor; [done|]. eapply Forall_impl; [exact Hrest|].
        intros n Hn. simpl in *. lia.
      * constructor; [simpl; lia|]. eapply Forall_impl; [exact Hrest|].
        intros n Hn. simpl in *. lia.
    + split; [done|]. eapply Forall_impl; [exact Hrest|].
      intros m Hm. simpl in *. lia.
Qed.

Lemma ready_line_numbers_sorted rows :
  StronglySorted Z.lt (ready_line_numbers rows)
  ∧ Forall (fun n => 1 ≤ n ≤ Z.of_nat (length rows)) (ready_line_numbers rows).
Proof.
  destruct (enumerate_lines_sorted ready rows 0) as [Hs Hr].
  split; [exact Hs|]. eapply Forall_impl; [exact Hr|].
  intros n Hn. simpl in Hn. lia.
Qed.

Lemma records_line_numbers (ps : list (Z * raw_row)) recs :
  Forall2 record_of ps recs →
  (fun rec : confession_dict => rec !! LINE_NUMBER_DICT_KEY) <$> recs
  = (fun n => Some (VInt n)) <$> ((fun p : Z * raw_row => p.1 + 1) <$> ps).
Proof.
  induction 1 as [|p rec ps recs (date & text & marker & _ & ->) _ IH]; [done|].
  rewrite !fmap_cons. f_equal. exact IH.
Qed.

(** X2: the line numbers of the records that [get_ready_confessions]
    returns increase strictly along the list, so no two records share one,
    and each lies between 1 and the number of fetched rows. *)
Theorem ready_line_numbers_increasing self env w r recs :
  service env (sent w) (values_get (id self) READY_CONFESSIONS_A1_FORMAT)
  = Returned r →
  (get_ready_confessions self env w).1 = Returned recs →
  ∃ lines,
    (fun rec : confession_dict => rec !! LINE_NUMBER_DICT_KEY) <$> recs
    = (fun n => Some (VInt n)) <$> lines
    ∧ StronglySorted Z.lt lines
    ∧ NoDup lines
    ∧ Forall (fun n => 1 ≤ n ≤ Z.of_nat (length (fetched r))) lines.
Proof.
  intros Hs Hrun.
  destruct (get_ready_confessions_run self env w r Hs) as (recs' & Hrun' & Hrecs).
  rewrite Hrun' in Hrun. simpl in Hrun. injection Hrun as ->.
  exists (ready_line_numbers (fetched r)).
  destruct (ready_line_numbers_sorted (fetched r)) as [Hsorted Hrange].
  split; [by apply records_line_numbers|]. split; [done|]. split; [|done].
  clear -Hsorted. induction Hsorted as [|n l _ IH Hn]; constructor; [|done].
  intros Hin. rewrite Forall_forall in Hn. specialize (Hn n Hin). lia.
Qed.

Lemma ready_line_numbers_increasing_witness :
  ∃ lines,
    (fun rec : confession_dict => rec !! LINE_NUMBER_DICT_KEY)
      <$> [Sample.third; Sample.fifth]
    = (fun n => Some (VInt n)) <$> lines
    ∧ StronglySorted Z.lt lines
    ∧ NoDup lines
    ∧ Forall (fun n => 1 ≤ n ≤ 5) lines.
Proof.
  exact (ready_line_numbers_increasing Sample.sheet
           (Sample.serving (Some Sample.rows)) Sample.start
           {| values := Some Sample.rows |} [Sample.third; Sample.fifth]
           eq_refl eq_refl).
Defined.

(** * Further properties of [Sheet.delete_rows] and [Sheet.add_row] *)

#[global] Instance descending_antisymm : AntiSymm (=) descending.
Proof. intros x y. unfold descending. lia. Qed.

(** Rows that already increase strictly are deleted in the opposite
    order. *)
Lemma sorted_reverse_increasing (rows : list Z) :
  StronglySorted Z.lt rows → sorted_reverse (set rows) = reverse rows.
Proof.
  intros Hs.
  assert (NoDup rows) as Hnd.
  { induction Hs as [|n l _ IH Hn]; constructor; [|done].
    intros Hin. rewrite Forall_forall in Hn. specialize (Hn n Hin). lia. }
  apply (StronglySorted_unique descending).
  - apply StronglySorted_merge_sort; apply _.
  - clear Hnd. induction Hs as [|n l _ IH Hn]; [constructor|].
    rewrite reverse_cons. apply StronglySorted_app_2; [|done|repeat constructor].
    intros x y Hx ->%list_elem_of_singleton.
    rewrite elem_of_reverse in Hx. rewrite Forall_forall in Hn.
    specialize (Hn x Hx). unfold descending. lia.
  - unfold sorted_reverse, set.
    by rewrite merge_sort_Permutation, elements_list_to_set, reverse_Permutation.
Qed.

Lemma set_same_members (rows1 rows2 : list Z) :
  (∀ n, n ∈ rows1 ↔ n ∈ rows2) → set rows1 = set rows2.
Proof.
  intros H. unfold set. apply set_eq. intros n.
  by rewrite !elem_of_list_to_set.
Qed.

(** X3: [delete_rows] depends on the set of the row numbers only: two
    lists with the same members, in any order and with any repetitions,
    give the same request and the same outcome. *)
Theorem delete_rows_order_and_repeats_irrelevant self sheet_id rows1 rows2
    env w :
  (∀ n, n ∈ rows1 ↔ n ∈ rows2) →
  delete_rows self sheet_id rows1 env w = delete_rows self sheet_id rows2 env w.
Proof.
  intros H. by rewrite !delete_rows_run, (set_same_members _ _ H).
Qed.

Lemma delete_rows_order_and_repeats_irrelevant_witness :
  delete_rows Sample.sheet CONFESSION_SHEET_ID [5; 2; 2; 8]
    (Sample.serving None) Sample.start
  = delete_rows Sample.sheet CONFESSION_SHEET_ID [8; 5; 2]
      (Sample.serving None) Sample.start.
Proof.
  apply (delete_rows_order_and_repeats_irrelevant Sample.sheet
           CONFESSION_SHEET_ID [5; 2; 2; 8] [8; 5; 2]).
  intros n. rewrite !elem_of_cons, !elem_of_nil. tauto.
Defined.

(** X4: given the line numbers of the ready rows, as
    [get_ready_confessions] numbers them, [delete_rows] asks for the ready
    rows from the last to the first, each by its fetch position [i] as the
    range from [i] to [i + 1]. *)
Theorem delete_rows_of_ready_lines self sheet_id rows env w :
  sent (delete_rows self sheet_id (ready_line_numbers rows) env w).2
  = sent w ++
    [batchUpdate (id self)
       (reverse
          ((fun p : Z * raw_row =>
              deleteDimension {| sheetId := sheet_id; dimension := "ROWS";
                                 startIndex := p.1; endIndex := p.1 + 1 |})
             <$> filter ready (enumerate rows)))].
Proof.
  rewrite delete_rows_run. simpl. do 3 f_equal.
  rewrite sorted_reverse_increasing by apply ready_line_numbers_sorted.
  unfold ready_line_numbers.
  rewrite <- (fmap_reverse _ (filter ready _)), <- (fmap_reverse _ (filter ready _)).
  rewrite <- list_fmap_compose.
  apply list_fmap_ext. intros _ p _. unfold delete_row_request. simpl.
  do 2 f_equal. lia.
Qed.

(** X5: [add_row] executes one append with the given data and range, with
    the input option ["RAW"] when [raw_input_option] is true and
    ["USER_ENTERED"] when it is false; it raises what the service raises
    and returns otherwise. *)
Theorem add_row_sends_one_append self data data_range
    (raw_input_option : bool) env w :
  let input_option := if raw_input_option then "RAW" else "USER_ENTERED" in
  add_row self data data_range raw_input_option env w
  = (acknowledged
       (service env (sent w)
          (values_append (id self) data_range input_option data)),
     after w (values_append (id self) data_range input_option data)).
Proof.
  unfold add_row, bind, execute, after. simpl.
  destruct raw_input_option; by destruct (service env _ _).
Qed.

(** * Runs of [archive_confessions] *)

Lemma for_each_app {A S} (xs ys : list A) (body : A → S → M S) s env w :
  for_each (xs ++ ys) body s env w
  = match for_each xs body s env w with
    | (Returned s', w') => for_each ys body s' env w'
    | (Raised e, w') => (Raised e, w')
    end.
Proof.
  revert s w. induction xs as [|x xs IH]; intros s w; [done|].
  simpl. unfold bind. destruct (body x s env w) as [[s'|e] w']; [apply IH|done].
Qed.

Section archive_runs.
Context (self : Sheet).

Lemma archive_requests_cons env start f fs :
  archive_requests self env start (f :: fs)
  = archive_request self env start f :: archive_requests self env (S start) fs.
Proof.
  unfold archive_requests. rewrite imap_cons. f_equal.
  - by rewrite Nat.add_0_r.
  - apply imap_ext. intros k g _. simpl. f_equal. lia.
Qed.

Lemma archive_requests_snoc env start fs f :
  archive_requests self env start (fs ++ [f])
  = archive_requests self env start fs
    ++ [archive_request self env (start + length fs) f].
Proof.
  unfold archive_requests. rewrite imap_app. simpl. by rewrite Nat.add_0_r.
Qed.

Lemma add_confession_stamped c f env w :
  has_fields c f →
  _add_confession_to_archive self c env w
  = (acknowledged (service env (sent w) (archive_request self env (ticks w) f)),
     {| sent := sent w ++ [archive_request self env (ticks w) f];
        ticks := S (ticks w) |}).
Proof.
  intros [Hd Ht]. unfold archive_request. rewrite <- strftime_published.
  by apply add_confession_run.
Qed.

(** While the service answers, the loop appends one row per confession. *)
Lemma archive_loop_accepted env cs fs : ∀ w,
  Forall2 has_fields cs fs →
  accepts env (length (sent w)) (length cs) →
  for_each cs (fun c _ => _add_confession_to_archive self c) tt env w
  = (Returned tt,
     {| sent := sent w ++ archive_requests self env (ticks w) fs;
        ticks := ticks w + length cs |}).
Proof.
  intros w Hfs. revert w.
  induction Hfs as [|c f cs fs Hf _ IH]; intros w Hacc.
  - simpl. unfold ret. rewrite app_nil_r, Nat.add_0_r. by destruct w.
  - cbn [for_each]. unfold bind at 1. rewrite (add_confession_stamped _ _ _ _ Hf).
    destruct (Hacc (sent w) (archive_request self env (ticks w) f)) as [r ->];
      [simpl; lia|].
    simpl acknowledged. cbv iota beta. rewrite IH.
    + simpl. rewrite archive_requests_cons, <- app_assoc. simpl.
      do 2 f_equal. lia.
    + intros hist req Hlen. apply Hacc. simpl in *.
      rewrite length_app in Hlen. simpl in *. lia.
Qed.

(** X6: when every confession has a date and a text and the service
    accepts the appends, [archive_confessions] appends one row per
    confession, in input order, each stamped with its own reading of the
    clock, before it looks at any line number; it then raises [KeyError]
    if some confession has no line number, and [AttributeError] for
    [delete_row] otherwise. *)
Theorem archive_confessions_appends_all_first cs fs env w :
  Forall2 has_fields cs fs →
  accepts env (length (sent w)) (length cs) →
  archive_confessions self cs env w
  = (Raised (if decide (Forall (fun c : confession_dict =>
                                  is_Some (c !! LINE_NUMBER_DICT_KEY)) cs)
             then AttributeError "ConfessionsSheet" "delete_row"
             else KeyError "Line Number"),
     {| sent := sent w ++ archive_requests self env (ticks w) fs;
        ticks := ticks w + length cs |}).
Proof.
  intros Hfs Hacc. unfold archive_confessions.
  rewrite (bind_returned _ _ _ _ _ _ (archive_loop_accepted env cs fs w Hfs Hacc)).
  rewrite delete_confessions_from_pool_run.
  destruct (decide _) as [Hall|Hnot].
  - apply (mapM_is_Some_2 (fun c : confession_dict => c !! LINE_NUMBER_DICT_KEY))
      in Hall as [ns ->]. done.
  - destruct (mapM _ cs) as [ns|] eqn:Hm; [|done].
    destruct Hnot.
    apply (mapM_is_Some_1 (fun c : confession_dict => c !! LINE_NUMBER_DICT_KEY)).
    by rewrite Hm.
Qed.

(** X7: when the service raises on the append of one confession, after
    accepting those before it, [archive_confessions] raises that exception
    at once: the rows of the earlier confessions and the failed request
    have been sent, nothing is sent for the later confessions, and nothing
    is deleted. *)
Theorem archive_confessions_stops_at_failed_append pre c post fs f e env w :
  Forall2 has_fields pre fs →
  has_fields c f →
  accepts env (length (sent w)) (length pre) →
  fails_at env (length (sent w) + length pre) e →
  archive_confessions self (pre ++ c :: post) env w
  = (Raised e,
     {| sent := sent w ++ archive_requests self env (ticks w) (fs ++ [f]);
        ticks := ticks w + length pre + 1 |}).
Proof.
  intros Hfs Hf Hacc Hfail. unfold archive_confessions.
  apply bind_raised. rewrite for_each_app.
  rewrite (archive_loop_accepted env pre fs w Hfs Hacc).
  cbn [for_each]. apply bind_raised.
  rewrite (add_confession_stamped _ _ _ _ Hf). simpl.
  rewrite Hfail by (unfold archive_requests; rewrite length_app, length_imap;
                    by rewrite <- (Forall2_length _ _ _ Hfs)).
  simpl. rewrite archive_requests_snoc, <- app_assoc.
  rewrite <- (Forall2_length _ _ _ Hfs). do 2 f_equal. lia.
Qed.

(** X8: a confession without a date, or with a date and without a text,
    stops [archive_confessions] with [KeyError] for the first of the two
    keys that is missing: the rows of the earlier confessions have been
    sent, the clock has been read once more, and nothing is sent for this
    confession or the later ones. *)
Theorem archive_confessions_stops_at_missing_key pre c post fs key env w :
  Forall2 has_fields pre fs →
  accepts env (length (sent w)) (length pre) →
  (c !! DATE_PUBLISHED_DICT_KEY = None ∧ key = "Date Published")
  ∨ (is_Some (c !! DATE_PUBLISHED_DICT_KEY)
     ∧ c !! CONFESSION_DICT_KEY = None ∧ key = "Confession") →
  archive_confessions self (pre ++ c :: post) env w
  = (Raised (KeyError key),
     {| sent := sent w ++ archive_requests self env (ticks w) fs;
        ticks := ticks w + length pre + 1 |}).
Proof.
  intros Hfs Hacc Hkey. unfold archive_confessions.
  apply bind_raised. rewrite for_each_app.
  rewrite (archive_loop_accepted env pre fs w Hfs Hacc).
  cbn [for_each]. apply bind_raised.
  destruct Hkey as [[Hd ->]|([d Hd] & Ht & ->)].
  - rewrite (add_confession_no_date self _ _ _ Hd). simpl. do 2 f_equal. lia.
  - rewrite (add_confession_no_text self _ _ _ _ Hd Ht). simpl. do 2 f_equal. lia.
Qed.
End archive_runs.

Lemma archive_confessions_appends_all_first_witness :
  archive_confessions Sample.sheet [Sample.third; Sample.fifth]
    (Sample.serving None) Sample.start
  = (Raised (if decide (Forall (fun c : confession_dict =>
                                  is_Some (c !! LINE_NUMBER_DICT_KEY))
                          [Sample.third; Sample.fifth])
             then AttributeError "ConfessionsSheet" "delete_row"
             else KeyError "Line Number"),
     {| sent := sent Sample.start
                ++ archive_requests Sample.sheet (Sample.serving None)
                     (ticks Sample.start) Cases.fields;
        ticks := ticks Sample.start + 2 |}).
Proof.
  apply (archive_confessions_appends_all_first Sample.sheet
           [Sample.third; Sample.fifth] Cases.fields (Sample.serving None)
           Sample.start).
  - repeat (constructor; [split; reflexivity|]). constructor.
  - intros hist req _. eexists. reflexivity.
Defined.

Lemma archive_confessions_stops_at_failed_append_witness :
  archive_confessions Sample.sheet
    ([Sample.third] ++ Sample.fifth :: [Sample.third])
    (Cases.failing 1 (HttpError 503)) Sample.start
  = (Raised (HttpError 503),
     {| sent := sent Sample.start
                ++ archive_requests Sample.sheet
                     (Cases.failing 1 (HttpError 503)) (ticks Sample.start)
                     ([(VStr "2023-01-01 10:00:00", VStr "hello world")]
                      ++ [(VStr "d5", VStr "c5")]);
        ticks := ticks Sample.start + 1 + 1 |}).
Proof.
  apply (archive_confessions_stops_at_failed_append Sample.sheet
           [Sample.third] Sample.fifth [Sample.third]
           [(VStr "2023-01-01 10:00:00", VStr "hello world")]
           (VStr "d5", VStr "c5") (HttpError 503)
           (Cases.failing 1 (HttpError 503)) Sample.start).
  - repeat (constructor; [split; reflexivity|]). constructor.
  - split; reflexivity.
  - intros hist req Hlen. simpl in *.
    destruct (decide (length hist = 1%nat)); [lia|]. eexists. reflexivity.
  - intros hist req Hlen. simpl in *.
    destruct (decide (length hist = 1%nat)); [reflexivity|lia].
Defined.

Lemma archive_confessions_stops_at_missing_key_witness :
  archive_confessions Sample.sheet ([Sample.third] ++ Cases.no_text :: [])
    (Sample.serving None) Sample.start
  = (Raised (KeyError "Confession"),
     {| sent := sent Sample.start
                ++ archive_requests Sample.sheet (Sample.serving None)
                     (ticks Sample.start)
                     [(VStr "2023-01-01 10:00:00", VStr "hello world")];
        ticks := ticks Sample.start + 1 + 1 |}).
Proof.
  apply (archive_confessions_stops_at_missing_key Sample.sheet
           [Sample.third] Cases.no_text []
           [(VStr "2023-01-01 10:00:00", VStr "hello world")] "Confession"
           (Sample.serving None) Sample.start).
  - repeat (constructor; [split; reflexivity|]). constructor.
  - intros hist req _. eexists. reflexivity.
  - right. split; [by eexists|]. split; reflexivity.
Defined.

(** * What the deletion batch does to the worksheet *)

Lemma filter_imap_ext {A B} (P Q : B → Prop)
    `{∀ x, Decision (P x), ∀ x, Decision (Q x)} (l : list A) :
  ∀ f : nat → A → B,
  (∀ j y, l !! j = Some y → P (f j y) ↔ Q (f j y)) →
  filter P (imap f l) = filter Q (imap f l).
Proof.
  induction l as [|x l IH]; intros f Hf; [done|].
  rewrite imap_cons, !filter_cons.
  rewrite (IH (f ∘ S)) by (intros j y Hj; apply (Hf (S j) y Hj)).
  pose proof (Hf 0%nat x eq_refl).
  destruct (decide (P (f 0%nat x))), (decide (Q (f 0%nat x))); tauto.
Qed.

Lemma filter_imap_all {A B} (P : B → Prop) `{∀ x, Decision (P x)} (l : list A) :
  ∀ f : nat → A → B,
  (∀ j y, l !! j = Some y → P (f j y)) → filter P (imap f l) = imap f l.
Proof.
  induction l as [|x l IH]; intros f Hf; [done|].
  rewrite imap_cons, filter_cons_True by apply (Hf 0%nat x eq_refl).
  f_equal. apply IH. intros j y Hj. apply (Hf (S j) y Hj).
Qed.

Lemma imap_snd {A} (g : nat → Z) (l : list A) :
  (imap (fun j y => (g j, y)) l).*2 = l.
Proof.
  revert g. induction l as [|x l IH]; intros g; [done|].
  rewrite imap_cons, fmap_cons. simpl. f_equal. apply (IH (g ∘ S)).
Qed.

Lemma filter_imap_snd {A} (Q : A → Prop) `{∀ x, Decision (Q x)} (l : list A) :
  ∀ g : nat → Z,
  (filter (fun p : Z * A => Q p.2) (imap (fun j y => (g j, y)) l)).*2
  = filter Q l.
Proof.
  induction l as [|x l IH]; intros g; [done|].
  rewrite imap_cons, !filter_cons. simpl.
  specialize (IH (g ∘ S)). simpl in IH.
  destruct (decide (Q x)); [rewrite fmap_cons; simpl; f_equal|]; exact IH.
Qed.

(** Deleting row [n] first, where [n] is above all the other numbers,
    leaves the other rows where the numbers expect them. *)
Lemma without_rows_largest {A} (n : Z) (numbers : list Z) (rows : list A) :
  1 ≤ n ≤ Z.of_nat (length rows) →
  Forall (fun m => m < n) numbers →
  without_rows numbers
    (take (Z.to_nat (n - 1)) rows ++ drop (Z.to_nat n) rows)
  = without_rows (n :: numbers) rows.
Proof.
  intros Hn Hlt. rewrite Forall_forall in Hlt.
  set (i := Z.to_nat (n - 1)).
  replace (Z.to_nat n) with (S i) by lia.
  destruct (lookup_lt_is_Some_2 rows i) as [x Hx]; [lia|].
  assert (length (take i rows) = i) as Hlen by (apply length_take_le; lia).
  unfold without_rows.
  rewrite (enumerate_split rows i x Hx).
  unfold enumerate at 1. rewrite imap_app, Hlen.
  rewrite !filter_app, !fmap_app. f_equal.
  - fold (enumerate (take i rows)). unfold enumerate. f_equal.
    apply filter_imap_ext. intros j y Hj. simpl.
    apply lookup_lt_Some in Hj. rewrite Hlen in Hj.
    rewrite not_elem_of_cons. split; [|tauto].
    intros Hnot. split; [lia|done].
  - rewrite filter_cons_False
      by (simpl; intros Hnot; apply Hnot;
          replace (Z.of_nat i + 1) with n by lia; left).
    rewrite !filter_imap_all, !imap_snd; [done| |].
    + intros j y _. simpl. rewrite not_elem_of_cons. split; [lia|].
      intros Hin. specialize (Hlt _ Hin). lia.
    + intros j y _. simpl. intros Hin. specialize (Hlt _ Hin). lia.
Qed.

Lemma apply_batch_descending {A} sheet_id (numbers : list Z) : ∀ rows : list A,
  StronglySorted (fun x y => y < x) numbers →
  Forall (fun n => 1 ≤ n ≤ Z.of_nat (length rows)) numbers →
  apply_batch (delete_row_request sheet_id <$> numbers) rows
  = without_rows numbers rows.
Proof.
  induction numbers as [|n numbers IH]; intros rows Hs Hr.
  - unfold without_rows, enumerate.
    rewrite filter_imap_all by (intros; apply not_elem_of_nil).
    by rewrite imap_snd.
  - apply StronglySorted_cons in Hs as [Hlt Hs].
    apply Forall_cons in Hr as [Hn Hr].
    rewrite fmap_cons. unfold apply_batch.
    cbn [foldl apply_request delete_row_request startIndex endIndex].
    fold (apply_batch (delete_row_request sheet_id <$> numbers)
            (take (Z.to_nat (n - 1)) rows ++ drop (Z.to_nat n) rows)).
    rewrite IH; [by apply without_rows_largest|done|].
    rewrite Forall_forall in Hlt, Hr |- *. intros m Hm.
    specialize (Hlt m Hm). specialize (Hr m Hm).
    rewrite length_app, length_take_le, length_drop by lia. lia.
Qed.

Lemma without_rows_same_members {A} (numbers1 numbers2 : list Z) (rows : list A) :
  (∀ n, n ∈ numbers1 ↔ n ∈ numbers2) →
  without_rows numbers1 rows = without_rows numbers2 rows.
Proof.
  intros H. unfold without_rows, enumerate. f_equal.
  apply filter_imap_ext. intros j y _. by rewrite H.
Qed.

(** The batch of [delete_rows], applied request by request. *)
Lemma sorted_reverse_batch {A} sheet_id numbers (rows : list A) :
  Forall (fun n => 1 ≤ n ≤ Z.of_nat (length rows)) numbers →
  apply_batch (delete_row_request sheet_id <$> sorted_reverse (set numbers)) rows
  = without_rows numbers rows.
Proof.
  intros Hr. rewrite apply_batch_descending.
  - apply without_rows_same_members, sorted_reverse_elem_of.
  - apply sorted_reverse_strict.
  - rewrite Forall_forall in Hr |- *. intros n Hn.
    apply Hr. by apply sorted_reverse_elem_of.
Qed.

(** X9: when the requests of a batch take effect in order, each on the
    rows the one before it left, the batch that [delete_rows] sends for
    row numbers within the worksheet removes the rows with these numbers,
    as counted before the batch, and no other row, whatever the order and
    the repetitions of the numbers. *)
Theorem delete_rows_batch_removes_the_rows {A} self sheet_id numbers
    (rows : list A) env w :
  Forall (fun n => 1 ≤ n ≤ Z.of_nat (length rows)) numbers →
  ∃ requests,
    sent (delete_rows self sheet_id numbers env w).2
    = sent w ++ [batchUpdate (id self) requests]
    ∧ apply_batch requests rows = without_rows numbers rows.
Proof.
  intros Hr. eexists. rewrite delete_rows_run. split; [reflexivity|].
  by apply sorted_reverse_batch.
Qed.

Lemma delete_rows_batch_removes_the_rows_witness :
  ∃ requests,
    sent (delete_rows Sample.sheet CONFESSION_SHEET_ID [3; 1; 3]
            (Sample.serving None) Sample.start).2
    = sent Sample.start ++ [batchUpdate (id Sample.sheet) requests]
    ∧ apply_batch requests ["a"; "b"; "c"; "d"]
      = without_rows [3; 1; 3] ["a"; "b"; "c"; "d"].
Proof.
  apply (delete_rows_batch_removes_the_rows Sample.sheet CONFESSION_SHEET_ID
           [3; 1; 3] ["a"; "b"; "c"; "d"] (Sample.serving None) Sample.start).
  repeat constructor; simpl; lia.
Defined.

(** A position is among the ready line numbers exactly when its row is
    ready. *)
Lemma elem_of_ready_line_numbers rows (j : nat) row :
  rows !! j = Some row →
  Z.of_nat j + 1 ∈ ready_line_numbers rows ↔ length row = 3%nat.
Proof.
  intros Hj. unfold ready_line_numbers. rewrite list_elem_of_fmap. split.
  - intros (q & Hq & Hin). apply list_elem_of_filter in Hin as [Hready Hin].
    apply elem_of_enumerate in Hin as (i & Hi & Hrow).
    assert (i = j) as -> by lia. rewrite Hj in Hrow.
    injection Hrow as ->. exact Hready.
  - intros Hlen. exists (Z.of_nat j, row). split; [done|].
    apply list_elem_of_filter. split; [exact Hlen|].
    apply elem_of_enumerate. by exists j.
Qed.

(** X10: the line numbers that [get_ready_confessions] gives to the ready
    rows are the ones [delete_rows] needs: its batch for them, applied in
    order to the fetched rows, removes the rows with three cells and keeps
    all the others, in their order. *)
Theorem ready_rows_deleted_others_kept self sheet_id rows env w :
  ∃ requests,
    sent (delete_rows self sheet_id (ready_line_numbers rows) env w).2
    = sent w ++ [batchUpdate (id self) requests]
    ∧ apply_batch requests rows
      = filter (fun row : raw_row => length row ≠ 3%nat) rows.
Proof.
  eexists. rewrite delete_rows_run. split; [reflexivity|].
  rewrite sorted_reverse_batch by apply ready_line_numbers_sorted.
  unfold without_rows, enumerate.
  rewrite <- (filter_imap_snd (fun row : raw_row => length row ≠ 3%nat)
                rows Z.of_nat).
  f_equal. apply filter_imap_ext. intros j row Hj. simpl.
  by rewrite (elem_of_ready_line_numbers rows j row Hj).
Qed.

(** * The archive stamp *)








(** * [main] of [bot/server.py] *)

Module ServerFacts.
Import Server.

(** X12: [main] returns normally in these cases and no other: the logger
    is set up, and then either the constructor raises
    [UnavailableResourseError], or it gives a server whose [run] returns
    or raises [KeyboardInterrupt] or [UnavailableResourseError]. *)
Theorem main_returns_iff {manager} (m : imports manager) :
  (main m).2 = Gives tt
  ↔ setup_logger m "" "" = Gives tt
    ∧ (ConfessionManager m = Throws UnavailableResourseError
       ∨ ∃ server,
           ConfessionManager m = Gives server
           ∧ (run m server = Gives tt
              ∨ run m server = Throws KeyboardInterrupt
              ∨ run m server = Throws UnavailableResourseError)).
Proof.
  unfold main, try_block, LOGS_DIRECTORY, LOG_FILE_PREFIX.
  destruct (setup_logger m "" "") as [[]|e] eqn:Hl;
    [|split; [discriminate | intros [? _]; discriminate]].
  destruct (ConfessionManager m) as [server|e] eqn:Hc; simpl.
  - destruct (run m server) as [[]|e] eqn:Hrun; simpl.
    + split; [|done]. intros _. split; [done|]. right. exists server. auto.
    + split.
      * intros He. split; [done|]. right. exists server. split; [done|].
        destruct e; simpl in He; try discriminate; auto.
      * intros [_ [Hf|(s & Hs & Hr)]]; [discriminate|].
        injection Hs as <-. rewrite Hrun in Hr.
        destruct Hr as [Hr|[Hr|Hr]]; try discriminate;
          injection Hr as ->; done.
  - split.
    + intros He. split; [done|]. left.
      destruct e; simpl in He; try discriminate. done.
    + intros [_ [Hf|(s & Hs & _)]]; [by injection Hf as ->|discriminate].
Qed.

(** X13: a [KeyboardInterrupt] raised while the [ConfessionManager] is
    constructed is not handled quietly: the handler's [del server] finds
    [server] unbound, and [main] raises [UnboundLocalError]; [run] is not
    called. *)
Theorem main_interrupted_in_constructor {manager} (m : imports manager) :
  setup_logger m "" "" = Gives tt →
  ConfessionManager m = Throws KeyboardInterrupt →
  main m = ([called_setup_logger "" ""; called_ConfessionManager],
            Throws (UnboundLocalError "server")).
Proof.
  intros Hl Hc. unfold main, try_block, LOGS_DIRECTORY, LOG_FILE_PREFIX.
  by rewrite Hl, Hc.
Qed.

Lemma main_interrupted_in_constructor_witness :
  main (ending (Throws KeyboardInterrupt) (Gives tt))
  = ([called_setup_logger "" ""; called_ConfessionManager],
     Throws (UnboundLocalError "server")).
Proof.
  apply (main_interrupted_in_constructor
           (ending (Throws KeyboardInterrupt) (Gives tt))); reflexivity.
Defined.

(** X14: the logger is set up outside the [try]: whatever it raises,
    also one of the two exceptions that [main] handles, leaves [main] as
    it is, and nothing else is called. *)
Theorem main_logger_failure_propagates {manager} (m : imports manager) e :
  setup_logger m "" "" = Throws e →
  main m = ([called_setup_logger "" ""], Throws e).
Proof.
  intros Hl. unfold main, LOGS_DIRECTORY, LOG_FILE_PREFIX. by rewrite Hl.
Qed.

Lemma main_logger_failure_propagates_witness :
  main (no_logger UnavailableResourseError)
  = ([called_setup_logger "" ""], Throws UnavailableResourseError).
Proof.
  apply (main_logger_failure_propagates (no_logger UnavailableResourseError));
    reflexivity.
Defined.

(** X15: an exception other than the two that [main] handles, raised by
    the constructor or by [run], leaves [main] unchanged. *)
Theorem main_other_errors_propagate {manager} (m : imports manager) name :
  setup_logger m "" "" = Gives tt →
  ConfessionManager m = Throws (OtherError name)
  ∨ (∃ server, ConfessionManager m = Gives server
               ∧ run m server = Throws (OtherError name)) →
  (main m).2 = Throws (OtherError name).
Proof.
  intros Hl Hc. unfold main, try_block, LOGS_DIRECTORY, LOG_FILE_PREFIX.
  rewrite Hl. destruct Hc as [->|(server & -> & Hrun)]; simpl; [done|].
  by rewrite Hrun.
Qed.

Lemma main_other_errors_propagate_witness :
  (main (ending (Gives tt) (Throws (OtherError "HttpError")))).2
  = Throws (OtherError "HttpError").
Proof.
  apply (main_other_errors_propagate
           (ending (Gives tt) (Throws (OtherError "HttpError"))) "HttpError");
    [reflexivity|].
  right. by exists tt.
Defined.

End ServerFacts.

(** * [Sheet._get_credentials] *)

Module CredentialsFacts.
Import Credentials.

(** The run up to the reading of the store, when the directory is there
    or can be made. *)
Lemma get_credentials_directory_step h t :
  path_exists h t (credential_dir h) = true
  ∨ makedirs h (t ++ [os_path_exists (credential_dir h)]) (credential_dir h)
    = Fine tt →
  _get_credentials h t
  = (let t' := t ++ before_store h (path_exists h t (credential_dir h)) in
     let perform_authentication :=
       hbind (call_flow_from_clientsecrets (CREDENTIALS_FILE_PATH h) SCOPES)
         (fun f => call_run_flow
                     {| client_secrets := client_secrets f; scope := scope f;
                        user_agent := Some APPLICATION_NAME |}
                     (credential_path h)) in
     match stored h t' (credential_path h) with
     | None => perform_authentication
     | Some c => if invalid c then perform_authentication else hret c
     end h (t' ++ [Storage_get (credential_path h)])).
Proof.
  intros Hdir. unfold _get_credentials, hbind at 1, call_exists.
  fold (credential_dir h). fold (credential_path h). unfold before_store.
  destruct (path_exists h t (credential_dir h)) eqn:Hfound; simpl.
  - unfold hbind at 1, hret at 1. unfold hbind at 1, call_get. done.
  - destruct Hdir as [|Hmk]; [done|].
    unfold hbind at 1, call_makedirs. rewrite Hmk.
    unfold hbind at 1, call_get. by rewrite <- app_assoc.
Qed.

(** X16: credentials that are stored and not invalid are returned as they
    are, and neither [flow_from_clientsecrets] nor [run_flow] is called. *)
Theorem get_credentials_reuses_valid h t c :
  path_exists h t (credential_dir h) = true
  ∨ makedirs h (t ++ [os_path_exists (credential_dir h)]) (credential_dir h)
    = Fine tt →
  stored h (t ++ before_store h (path_exists h t (credential_dir h)))
    (credential_path h) = Some c →
  invalid c = false →
  ∃ calls,
    _get_credentials h t = (Fine c, t ++ calls)
    ∧ Forall (fun call => ¬ is_flow_call call) calls.
Proof.
  intros Hdir Hstored Hvalid.
  rewrite (get_credentials_directory_step h t Hdir). simpl.
  rewrite Hstored, Hvalid.
  exists (before_store h (path_exists h t (credential_dir h))
          ++ [Storage_get (credential_path h)]).
  unfold hret. rewrite app_assoc. split; [done|].
  apply Forall_app. split; [|repeat constructor; by intros []].
  unfold before_store. destruct (path_exists _ _ _);
    repeat constructor; by intros [].
Qed.

Lemma get_credentials_reuses_valid_witness :
  ∃ calls,
    _get_credentials
      (machine true true (Some kept_credentials) fresh_credentials) []
    = (Fine kept_credentials, [] ++ calls)
    ∧ Forall (fun call => ¬ is_flow_call call) calls.
Proof.
  exact (get_credentials_reuses_valid
           (machine true true (Some kept_credentials) fresh_credentials) []
           kept_credentials (or_introl eq_refl) eq_refl eq_refl).
Defined.

(** X17: when nothing is stored, or what is stored is invalid, and the
    client secrets can be read, the flow is made from
    [~/client_secret.json] and the spreadsheets scope, given the user agent
    ["Confession Manager"], and run against the store; what it ends with,
    credentials of any validity or an exception, is what
    [_get_credentials] ends with. *)
Theorem get_credentials_renews h t :
  path_exists h t (credential_dir h) = true
  ∨ makedirs h (t ++ [os_path_exists (credential_dir h)]) (credential_dir h)
    = Fine tt →
  let t' := t ++ before_store h (path_exists h t (credential_dir h))
              ++ [Storage_get (credential_path h)] in
  let f := {| client_secrets := expanduser h "~/client_secret.json";
              scope := "https://www.googleapis.com/auth/spreadsheets";
              user_agent := Some "Confession Manager" |} in
  match stored h (t ++ before_store h (path_exists h t (credential_dir h)))
          (credential_path h) with
  | None => True
  | Some c => invalid c = true
  end →
  secrets_read h t' (expanduser h "~/client_secret.json") = Fine tt →
  _get_credentials h t
  = (authorized h
       (t' ++ [flow_from_clientsecrets (expanduser h "~/client_secret.json")
                 "https://www.googleapis.com/auth/spreadsheets"])
       f (credential_path h),
     t' ++ [flow_from_clientsecrets (expanduser h "~/client_secret.json")
              "https://www.googleapis.com/auth/spreadsheets";
            run_flow f (credential_path h)]).
Proof.
  intros Hdir t' f Hstored Hread.
  rewrite (get_credentials_directory_step h t Hdir). simpl.
  assert (hbind (call_flow_from_clientsecrets (CREDENTIALS_FILE_PATH h) SCOPES)
            (fun f0 => call_run_flow
                         {| client_secrets := client_secrets f0;
                            scope := scope f0;
                            user_agent := Some APPLICATION_NAME |}
                         (credential_path h)) h t'
          = (authorized h
               (t' ++ [flow_from_clientsecrets
                         (expanduser h "~/client_secret.json")
                         "https://www.googleapis.com/auth/spreadsheets"])
               f (credential_path h),
             t' ++ [flow_from_clientsecrets
                      (expanduser h "~/client_secret.json")
                      "https://www.googleapis.com/auth/spreadsheets";
                    run_flow f (credential_path h)])) as Hflow.
  { unfold hbind, call_flow_from_clientsecrets, call_run_flow,
      CREDENTIALS_FILE_PATH, SCOPES, APPLICATION_NAME.
    rewrite Hread. simpl. by rewrite <- app_assoc. }
  subst t'. rewrite app_assoc in Hflow.
  destruct (stored h _ _) as [c|]; [rewrite Hstored|]; rewrite Hflow;
    by rewrite <- !app_assoc.
Qed.

Lemma get_credentials_renews_witness :
  _get_credentials
    (machine false true (Some expired_credentials) fresh_credentials) []
  = (Fine fresh_credentials,
     [os_path_exists "/home/bot/.credentials";
      os_makedirs "/home/bot/.credentials";
      Storage_get "/home/bot/.credentials/google_sheets.json";
      flow_from_clientsecrets "/home/bot/client_secret.json"
        "https://www.googleapis.com/auth/spreadsheets";
      run_flow {| client_secrets := "/home/bot/client_secret.json";
                  scope := "https://www.googleapis.com/auth/spreadsheets";
                  user_agent := Some "Confession Manager" |}
        "/home/bot/.credentials/google_sheets.json"]).
Proof.
  rewrite (get_credentials_renews
             (machine false true (Some expired_credentials) fresh_credentials)
             [] (or_intror eq_refl) eq_refl eq_refl).
  vm_compute. reflexivity.
Defined.

(** X18: when the credentials directory is missing and cannot be made,
    [_get_credentials] ends with the exception of [makedirs]; the store is
    not read and no flow is started. *)
Theorem get_credentials_makedirs_failure h t name :
  path_exists h t (credential_dir h) = false →
  makedirs h (t ++ [os_path_exists (credential_dir h)]) (credential_dir h)
  = Error name →
  _get_credentials h t
  = (Error name,
     t ++ [os_path_exists (credential_dir h); os_makedirs (credential_dir h)]).
Proof.
  intros Hfound Hmk. unfold _get_credentials, hbind at 1, call_exists.
  fold (credential_dir h). rewrite Hfound. simpl.
  unfold hbind at 1. unfold hbind at 1, call_makedirs. rewrite Hmk.
  by rewrite <- app_assoc.
Qed.

Lemma get_credentials_makedirs_failure_witness :
  _get_credentials (machine false false None fresh_credentials) []
  = (Error "OSError",
     [os_path_exists "/home/bot/.credentials";
      os_makedirs "/home/bot/.credentials"]).
Proof.
  exact (get_credentials_makedirs_failure
           (machine false false None fresh_credentials) [] "OSError"
           eq_refl eq_refl).
Defined.

End CredentialsFacts.
